(** * plant_api_openai: the Flask relay in front of the chat-completion API

    A shallow embedding of [plant_api_openai.py].  The two handlers
    [especie] and [esplanta] are pure functions of the request, of the
    reply of the upstream model client and of a few library functions
    ([json.loads], [bytes.decode], [str(e)]) that the file does not define
    and that are therefore taken as an interface ([Runtime]).

    Python [str] values are Rocq strings holding the UTF-8 encoding of the
    text.  Whitespace follows [str.isspace] on its whole Unicode range.
    What depends on the Unicode database or on the interpreter is part of
    the interface too: the case folding of [str.lower], the decimal digits
    that [\d] matches and [int] reads above ASCII, and the limit
    [sys.get_int_max_str_digits()] that [int] puts on the length of a
    number.  The regular expression and [int] read a text as its sequence of
    code points. *)

From Stdlib Require Import ZArith List String Ascii Bool Lia QArith.
From Stdlib Require Import Floats.SpecFloat.
Import ListNotations.

Local Open Scope string_scope.
Local Open Scope Z_scope.

(** ** Python values and exceptions *)

(** The values [json.loads] builds, which are also the values a handler
    hands to [jsonify].  A [dict] is the list of its items in insertion
    order, each key bound once. *)
#[warnings="-register-all"]
Inductive json : Type :=
| JNull
| JBool (b : bool)
| JInt (z : Z)
| JFloat (f : spec_float)
| JStr (s : string)
| JArr (items : list json)
| JObj (fields : list (string * json)).

(** The exception classes the handlers can meet.  [UpstreamError] stands
    for whatever the model client raises (network, authentication, rate
    limit). *)
Inductive exn : Type :=
| KeyError (key : string)
| IndexError
| TypeError
| AttributeError
| ValueError
| OverflowError
| UnicodeDecodeError
| JSONDecodeError (msg : string)
| BadRequest
| UpstreamError (msg : string).

(** A computation that returns or raises. *)
Definition py (A : Type) : Type := (exn + A)%type.

Definition ret {A} (a : A) : py A := inr a.
Definition raise {A} (e : exn) : py A := inl e.
Definition bind {A B} (m : py A) (k : A -> py B) : py B :=
  match m with
  | inl e => inl e
  | inr a => k a
  end.

Notation "x <- m ;; k" := (bind m (fun x => k))
  (at level 61, m at next level, right associativity).

(** ** Strings *)

Definition code (c : ascii) : N := N_of_ascii c.

Definition str_empty (s : string) : bool :=
  match s with
  | EmptyString => true
  | String _ _ => false
  end.

(** [needle in hay] on two strings. *)
Fixpoint str_contains (needle hay : string) : bool :=
  match hay with
  | EmptyString => str_empty needle
  | String _ rest => prefix needle hay || str_contains needle rest
  end.

(** One-byte white space: TAB, LF, VT, FF, CR, FS, GS, RS, US and SPACE. *)
Definition space1 (a : ascii) : bool :=
  let n := code a in
  ((9 <=? n) && (n <=? 13) || (28 <=? n) && (n <=? 32))%N.

(** Two-byte white space: U+0085 and U+00A0. *)
Definition space2 (a b : ascii) : bool :=
  ((code a =? 194) && ((code b =? 133) || (code b =? 160)))%N.

(** Three-byte white space: U+1680, U+2000..U+200A, U+2028, U+2029,
    U+202F, U+205F and U+3000. *)
Definition space3 (a b c : ascii) : bool :=
  let x := code a in
  let y := code b in
  let z := code c in
  ((x =? 225) && (y =? 154) && (z =? 128)
   || (x =? 226) && (y =? 128)
      && ((128 <=? z) && (z <=? 138) || (z =? 168) || (z =? 169) || (z =? 175))
   || (x =? 226) && (y =? 129) && (z =? 159)
   || (x =? 227) && (y =? 128) && (z =? 128))%N.

(** Drop the leading white space of a byte list.  [fwd] tells whether the
    list is read front to back; [strip_bytes false] is run on the reversed
    text to drop what trails. *)
Fixpoint strip_bytes (fwd : bool) (s : list ascii) : list ascii :=
  match s with
  | [] => []
  | a :: r1 =>
    if space1 a then strip_bytes fwd r1
    else
      match r1 with
      | [] => s
      | b :: r2 =>
        if (if fwd then space2 a b else space2 b a) then strip_bytes fwd r2
        else
          match r2 with
          | [] => s
          | c :: r3 =>
            if (if fwd then space3 a b c else space3 c b a)
            then strip_bytes fwd r3
            else s
          end
      end
  end.

(** [s.strip()] *)
Definition py_strip (s : string) : string :=
  string_of_list_ascii
    (rev (strip_bytes false (rev (strip_bytes true (list_ascii_of_string s))))).

Definition ascii_upper (n : N) : bool := ((65 <=? n) && (n <=? 90))%N.

(** Second byte of the Latin-1 capitals U+00C0..U+00DE, the multiplication
    sign U+00D7 apart. *)
Definition latin1_upper (n : N) : bool :=
  ((128 <=? n) && (n <=? 158) && negb (n =? 151))%N.

(** A lower-casing that knows the letters of ASCII and Latin-1 and leaves
    every other character as it is: [str.lower] on the texts of the worked
    examples. *)
Fixpoint latin1_lower (s : string) : string :=
  match s with
  | EmptyString => EmptyString
  | String a r =>
    if ascii_upper (code a) then String (ascii_of_N (code a + 32)) (latin1_lower r)
    else
      match r with
      | String b r' =>
        if ((code a =? 195)%N && latin1_upper (code b))
        then String a (String (ascii_of_N (code b + 32)) (latin1_lower r'))
        else String a (latin1_lower r)
      | EmptyString => String a EmptyString
      end
  end.

(** Length in bytes of the first character of a UTF-8 text. *)
Definition first_char_len (a : ascii) : nat :=
  let n := code a in
  if (n <? 192)%N then 1%nat
  else if (n <? 224)%N then 2%nat
  else if (n <? 240)%N then 3%nat
  else 4%nat.

(** ** Code points *)

(** The code points of a UTF-8 text.  [pending] bytes of the character
    being read are still to come and [acc] holds the bits read so far. *)
Fixpoint decode_from (pending : nat) (acc : N) (s : string) : list N :=
  match s with
  | EmptyString => []
  | String a r =>
    let n := code a in
    match pending with
    | O =>
      if (n <? 192)%N then n :: decode_from 0 0 r
      else if (n <? 224)%N then decode_from 1 (n mod 32) r
      else if (n <? 240)%N then decode_from 2 (n mod 16) r
      else decode_from 3 (n mod 8) r
    | S k =>
      let acc' := (acc * 64 + n mod 64)%N in
      match k with
      | O => acc' :: decode_from 0 0 r
      | S _ => decode_from k acc' r
      end
    end
  end.

Definition decode (s : string) : list N := decode_from 0 0 s.

(** [str.isspace] on one code point. *)
Definition is_space (c : N) : bool :=
  ((9 <=? c) && (c <=? 13) || (28 <=? c) && (c <=? 32)
   || (c =? 133) || (c =? 160) || (c =? 5760)
   || (8192 <=? c) && (c <=? 8202)
   || (c =? 8232) || (c =? 8233) || (c =? 8239) || (c =? 8287)
   || (c =? 12288))%N.

(** The ten decimal digits. *)
Inductive digit : Type := D0 | D1 | D2 | D3 | D4 | D5 | D6 | D7 | D8 | D9.

Definition digit_value (d : digit) : Z :=
  match d with
  | D0 => 0 | D1 => 1 | D2 => 2 | D3 => 3 | D4 => 4
  | D5 => 5 | D6 => 6 | D7 => 7 | D8 => 8 | D9 => 9
  end.

Definition nth_digit (n : N) : option digit :=
  match n with
  | 0 => Some D0 | 1 => Some D1 | 2 => Some D2 | 3 => Some D3 | 4 => Some D4
  | 5 => Some D5 | 6 => Some D6 | 7 => Some D7 | 8 => Some D8 | 9 => Some D9
  | _ => None
  end%N.

(** ** Library functions the handlers call *)

Class Runtime : Type := {
  (** [json.loads] on a [str] *)
  json_loads : string -> py json;
  (** [bytes.decode('utf-8')] *)
  decode_utf8 : string -> py string;
  (** [str(e)] for a caught exception *)
  str_exn : exn -> string;
  (** [str.lower] *)
  str_lower : string -> string;
  (** The value the Unicode database gives a code point above ASCII that
      is a decimal digit (category Nd) *)
  unicode_decimal : N -> option digit;
  (** [sys.get_int_max_str_digits()], 0 when [int] has no limit *)
  int_max_str_digits : nat
}.

(** The decimal digit a code point stands for, if any: what [\d] matches
    and what [int] reads.  In ASCII these are 0 to 9; above, no white space
    is a digit and the Unicode database tells the rest. *)
Definition decimal_of {RT : Runtime} (c : N) : option digit :=
  if (c <? 128)%N then
    if (48 <=? c)%N then nth_digit (c - 48) else None
  else if is_space c then None
  else unicode_decimal c.

Definition is_digit {RT : Runtime} (c : N) : bool :=
  match decimal_of c with
  | Some _ => true
  | None => false
  end.

Definition digit_val {RT : Runtime} (c : N) : Z :=
  match decimal_of c with
  | Some d => digit_value d
  | None => 0
  end.

(** The digits of an [int] literal after its sign: decimal digits, with
    single underscores allowed between two digits. *)
Fixpoint int_digits {RT : Runtime} (acc : Z) (after_digit : bool) (cs : list N)
  : option Z :=
  match cs with
  | [] => if after_digit then Some acc else None
  | c :: r =>
    if is_digit c then int_digits (10 * acc + digit_val c) true r
    else if (c =? 95)%N && after_digit then int_digits acc false r
    else None
  end.

Fixpoint count_digits {RT : Runtime} (cs : list N) : nat :=
  match cs with
  | [] => O
  | c :: r => if is_digit c then S (count_digits r) else count_digits r
  end.

(** A number of more than 640 digits is refused when the interpreter has a
    limit and the number is longer than it. *)
Definition over_int_limit {RT : Runtime} (digits : nat) : bool :=
  ((640 <? digits) && (0 <? int_max_str_digits)
   && (int_max_str_digits <? digits))%nat.

(** The white space [int] lets pass around a number: TAB, LF, VT, FF, CR
    and SPACE, and the white space above ASCII. *)
Definition is_int_space (c : N) : bool :=
  ((9 <=? c) && (c <=? 13) || (c =? 32) || (128 <=? c) && is_space c)%N.

Fixpoint drop_spaces (cs : list N) : list N :=
  match cs with
  | [] => []
  | c :: r => if is_int_space c then drop_spaces r else cs
  end.

Definition strip_spaces (cs : list N) : list N :=
  rev (drop_spaces (rev (drop_spaces cs))).

(** [int(s)] for a text given by its code points: white space around, a
    sign, digits. *)
Definition int_of_chars {RT : Runtime} (cs : list N) : py Z :=
  let t := strip_spaces cs in
  let negative :=
    match t with
    | c :: _ => (c =? 45)%N
    | [] => false
    end in
  let body :=
    match t with
    | c :: r => if ((c =? 43) || (c =? 45))%N then r else t
    | [] => []
    end in
  match int_digits 0 false body with
  | None => raise ValueError
  | Some z =>
    if over_int_limit (count_digits body) then raise ValueError
    else ret (if negative then - z else z)
  end.

(** [int(s)] for a string [s]. *)
Definition int_of_str {RT : Runtime} (s : string) : py Z :=
  int_of_chars (decode s).

(** ** Operations of the Python object model on JSON values *)

(** [bool(v)] *)
Definition py_truthy (v : json) : bool :=
  match v with
  | JNull => false
  | JBool b => b
  | JInt z => negb (z =? 0)
  | JFloat (S754_zero _) => false
  | JFloat _ => true
  | JStr s => negb (str_empty s)
  | JArr l => match l with [] => false | _ :: _ => true end
  | JObj kv => match kv with [] => false | _ :: _ => true end
  end.

(** [a or b] *)
Definition py_or (a b : json) : json := if py_truthy a then a else b.

Definition is_dict (v : json) : bool :=
  match v with
  | JObj _ => true
  | _ => false
  end.

Definition is_none (v : json) : bool :=
  match v with
  | JNull => true
  | _ => false
  end.

(** Look a key up in the items of a [dict] or of a form. *)
Fixpoint lookup {A} (k : string) (kv : list (string * A)) : option A :=
  match kv with
  | [] => None
  | (k', v) :: rest => if String.eqb k k' then Some v else lookup k rest
  end.

(** [v.get(k, default)]: only a [dict] has the method. *)
Definition py_get (v : json) (k : string) (default : json) : py json :=
  match v with
  | JObj kv => ret (match lookup k kv with Some x => x | None => default end)
  | _ => raise AttributeError
  end.

(** [v[k]] for a string key [k]. *)
Definition py_getitem (v : json) (k : string) : py json :=
  match v with
  | JObj kv =>
    match lookup k kv with
    | Some x => ret x
    | None => raise (KeyError k)
    end
  | _ => raise TypeError
  end.

(** [v[0]] *)
Definition py_first (v : json) : py json :=
  match v with
  | JArr (x :: _) => ret x
  | JArr [] => raise IndexError
  | JStr (String a r) => ret (JStr (substring 0 (first_char_len a) (String a r)))
  | JStr EmptyString => raise IndexError
  | JObj _ => raise (KeyError "0")
  | _ => raise TypeError
  end.

Definition is_str (k : string) (v : json) : bool :=
  match v with
  | JStr s => String.eqb s k
  | _ => false
  end.

(** [k in v] for a string [k]: a key of a [dict], an item of a [list], a
    substring of a [str]. *)
Definition py_in (k : string) (v : json) : py bool :=
  match v with
  | JObj kv => ret (match lookup k kv with Some _ => true | None => false end)
  | JArr l => ret (existsb (is_str k) l)
  | JStr s => ret (str_contains k s)
  | _ => raise TypeError
  end.

(** [int(f)] for a float: truncation towards zero. *)
Definition int_of_float (f : spec_float) : py Z :=
  match f with
  | S754_zero _ => ret 0
  | S754_infinity _ => raise OverflowError
  | S754_nan => raise ValueError
  | S754_finite s m e =>
    let v := Z.shiftl (Zpos m) e in
    ret (if s then - v else v)
  end.

(** [int(v)] *)
Definition py_int {RT : Runtime} (v : json) : py Z :=
  match v with
  | JInt z => ret z
  | JBool b => ret (if b then 1 else 0)
  | JFloat f => int_of_float f
  | JStr s => int_of_str s
  | _ => raise TypeError
  end.

(** [v.strip()]: only a [str] has the method. *)
Definition py_strip_method (v : json) : py string :=
  match v with
  | JStr s => ret (py_strip s)
  | _ => raise AttributeError
  end.

(** ** The regular expression of the text fallback *)

Fixpoint take_digits {RT : Runtime} (n : nat) (cs : list N) : list N :=
  match n, cs with
  | S n', c :: r => if is_digit c then c :: take_digits n' r else []
  | _, _ => []
  end.

Fixpoint drop (n : nat) (cs : list N) : list N :=
  match n, cs with
  | S n', _ :: r => drop n' r
  | _, _ => cs
  end.

(** One match of [(\d{1,3})%?] anchored at the head of [cs]: the group and
    the number of characters the whole match spans. *)
Definition match_here {RT : Runtime} (cs : list N) : option (list N * nat) :=
  let g := take_digits 3 cs in
  match g with
  | [] => None
  | _ :: _ =>
    let n := List.length g in
    match drop n cs with
    | b :: _ => if (b =? 37)%N then Some (g, S n) else Some (g, n)
    | [] => Some (g, n)
    end
  end.

(** The scan of [re.findall]: [skip] characters still belong to the match
    before; then the pattern is tried at every position in turn. *)
Fixpoint scan {RT : Runtime} (skip : nat) (cs : list N) : list (list N) :=
  match cs with
  | [] => []
  | _ :: r =>
    match skip with
    | S k => scan k r
    | O =>
      match match_here cs with
      | Some (g, n) => g :: scan (Nat.pred n) r
      | None => scan 0 r
      end
    end
  end.

(** [re.findall(r"(\d{1,3})%?", s)]: the groups of the successive matches,
    each as its code points. *)
Definition findall {RT : Runtime} (s : string) : list (list N) :=
  scan 0 (decode s).

Definition py_findall {RT : Runtime} (v : json) : py (list (list N)) :=
  match v with
  | JStr s => ret (findall s)
  | _ => raise TypeError
  end.

(** ** The HTTP request and the reply of a handler *)

(** What a handler reads of [flask.request].  [req_json_force] is the
    outcome of [get_json(force=True)], which raises [BadRequest] on a body
    that is not JSON; [req_json_silent] is that of [get_json(silent=True)],
    [None] when the body is not JSON or not declared as such. *)
Record request : Type := {
  req_json_force : py json;
  req_json_silent : json;
  req_data : string;
  req_form : list (string * string);
  req_args : list (string * string)
}.

(** [form.get(k)] and [args.get(k)] *)
Definition multidict_get (k : string) (d : list (string * string)) : json :=
  match lookup k d with
  | Some s => JStr s
  | None => JNull
  end.

(** A view function either returns [jsonify(body), status] or lets an
    exception through to the framework. *)
Inductive outcome : Type :=
| Response (body : json) (status : Z)
| Unhandled (e : exn).

(** ** The model client *)

(** The keyword arguments of [openai.ChatCompletion.create]. *)
Record chat_call : Type := {
  call_model : string;
  call_messages : list (string * string);
  call_functions : option json;
  call_function_call : option json;
  call_temperature : Q;
  call_max_tokens : Z
}.

Definition FUNCTIONS : json :=
  JArr [
    JObj [
      ("name", JStr "get_species_info");
      ("description", JStr "Return ideal soil and ambient humidity and whether the species is indoor or outdoor");
      ("parameters", JObj [
        ("type", JStr "object");
        ("properties", JObj [
          ("humedad_tierra", JObj [("type", JStr "integer"); ("description", JStr "Ideal soil humidity percentage 0-100")]);
          ("humedad_ambiente", JObj [("type", JStr "integer"); ("description", JStr "Ideal ambient humidity percentage 0-100")]);
          ("tipo", JObj [("type", JStr "string"); ("enum", JArr [JStr "interior"; JStr "exterior"]); ("description", JStr "indoor or outdoor plant")])
        ]);
        ("required", JArr [JStr "humedad_tierra"; JStr "humedad_ambiente"; JStr "tipo"])
      ])
    ]
  ].

Definition especie_system : string :=
  "You are a botanical assistant that gives concise ideal humidity numbers for plant species. Return only plausible numeric values between 0 and 100.".

Definition especie_user (especie : string) : string :=
  "Give the ideal soil humidity (%) and ambient humidity (%) and whether the plant is generally interior or exterior for the species: "
  ++ especie
  ++ ". Return via the function get_species_info as integers and the tipo as 'interior' or 'exterior'. If uncertain, choose a conservative value and prefer to mark as 'interior' if ambiguous.".

Definition especie_call (especie : string) : chat_call := {|
  call_model := "gpt-3.5-turbo-0613";
  call_messages := [("system", especie_system); ("user", especie_user especie)];
  call_functions := Some FUNCTIONS;
  call_function_call := Some (JObj [("name", JStr "get_species_info")]);
  call_temperature := 2 # 10;
  call_max_tokens := 200
|}.

Definition esplanta_system : string :=
  "Eres un asistente experto en plantas. Si la pregunta que te hacen está relacionada con plantas, jardinería, botánica, cuidados de plantas, especies vegetales, enfermedades de plantas, etc., responde solo con 'sí'. Si no tiene nada que ver con plantas, responde solo con 'no'. No añadas nada más.".

Definition esplanta_call (pregunta : string) : chat_call := {|
  call_model := "gpt-3.5-turbo-0613";
  call_messages := [("system", esplanta_system); ("user", pregunta)];
  call_functions := None;
  call_function_call := None;
  call_temperature := 0;
  call_max_tokens := 2
|}.

(** ** The handlers *)

(** [if ht < 0 or ht > 100: ht = max(0, min(100, ht if ht!=-1 else 50))] *)
Definition clamp_humidity (h : Z) : Z :=
  if (h <? 0) || (h >? 100)
  then Z.max 0 (Z.min 100 (if negb (h =? -1) then h else 50))
  else h.

(** ['interior' if tipo not in ['interior','exterior'] else tipo] *)
Definition normal_tipo (tipo : json) : json :=
  if negb (is_str "interior" tipo || is_str "exterior" tipo)
  then JStr "interior"
  else tipo.

(** [resp['choices'][0]] *)
Definition first_choice (resp : json) : py json :=
  choices <- py_getitem resp "choices" ;;
  py_first choices.

(** ['message' in choice and choice['message'].get('function_call')],
    taken as a condition. *)
Definition has_function_call (choice : json) : py bool :=
  present <- py_in "message" choice ;;
  if present then
    message <- py_getitem choice "message" ;;
    fc <- py_get message "function_call" JNull ;;
    ret (py_truthy fc)
  else ret false.

(** [choice['message']['function_call'].get('arguments')] *)
Definition function_arguments (choice : json) : py json :=
  message <- py_getitem choice "message" ;;
  fc <- py_getitem message "function_call" ;;
  py_get fc "arguments" JNull.

(** [choice['message'].get('content','')] *)
Definition message_content (choice : json) : py json :=
  message <- py_getitem choice "message" ;;
  py_get message "content" (JStr "").

Definition missing_especie : json :=
  JObj [("error", JStr "missing 'especie' in JSON body")].

Definition missing_pregunta : json :=
  JObj [("error", JStr "missing 'pregunta' in JSON body")].

Definition species_body (ht ha : Z) (tipo : json) : json :=
  JObj [("humedad_tierra", JInt ht); ("humedad_ambiente", JInt ha); ("tipo", tipo)].

Definition fallback_body (ht ha : Z) (text : json) : json :=
  JObj [("humedad_tierra", JInt ht); ("humedad_ambiente", JInt ha);
        ("tipo", JStr "interior");
        ("note", JStr "extracted from text fallback"); ("raw_text", text)].

(** [int(nums[i]) if len(nums) > i else 50] *)
Definition nth_int {RT : Runtime} (i : nat) (nums : list (list N)) : py Z :=
  match nth_error nums i with
  | Some g => int_of_chars g
  | None => ret 50
  end.

(** The heuristic extraction from the text of the reply. *)
Definition especie_fallback {RT : Runtime} (choice : json) : py outcome :=
  text <- message_content choice ;;
  nums <- py_findall text ;;
  ht <- nth_int 0 nums ;;
  ha <- nth_int 1 nums ;;
  ret (Response (fallback_body ht ha text) 200).

Section Service.

Context {RT : Runtime}.

(** The model client, [openai.ChatCompletion.create]. *)
Variable create : chat_call -> py json.

(** [json.loads(v)] for any value [v]. *)
Definition py_json_loads (v : json) : py json :=
  match v with
  | JStr s => json_loads s
  | _ => raise TypeError
  end.

Definition upstream_failed (e : exn) : outcome :=
  Response (JObj [("error", JStr "openai request failed"); ("detail", JStr (str_exn e))]) 502.

Definition parse_failed (e : exn) (func_args : json) : outcome :=
  Response (JObj [("error", JStr "failed parsing model arguments");
                  ("detail", JStr (str_exn e)); ("raw", func_args)]) 500.

(** The body of the inner [try]: parse the arguments, validate, answer. *)
Definition especie_structured (func_args : json) : py outcome :=
  args <- py_json_loads func_args ;;
  v <- py_get args "humedad_tierra" (JInt (-1)) ;;
  ht <- py_int v ;;
  v <- py_get args "humedad_ambiente" (JInt (-1)) ;;
  ha <- py_int v ;;
  tipo <- py_get args "tipo" (JStr "") ;;
  ret (Response (species_body (clamp_humidity ht) (clamp_humidity ha) (normal_tipo tipo)) 200).

(** What follows the call inside the outer [try] of [especie]. *)
Definition especie_reply (resp : json) : py outcome :=
  choice <- first_choice resp ;;
  structured <- has_function_call choice ;;
  if structured then
    func_args <- function_arguments choice ;;
    match especie_structured func_args with
    | inr out => ret out
    | inl e => ret (parse_failed e func_args)
    end
  else especie_fallback choice.

(** [(data.get('especie') or '').strip()] on the forced JSON body. *)
Definition especie_field (req : request) : py string :=
  data <- req_json_force req ;;
  v <- py_get data "especie" JNull ;;
  py_strip_method (py_or v (JStr "")).

(** The view function of [POST /especie]: the calls made to the model
    client, and the outcome. *)
Definition especie (req : request) : list chat_call * outcome :=
  match especie_field req with
  | inl e => ([], Unhandled e)
  | inr name =>
    if str_empty name then ([], Response missing_especie 400)
    else
      let call := especie_call name in
      ([call],
       match (resp <- create call ;; especie_reply resp) with
       | inr out => out
       | inl e => upstream_failed e
       end)
  end.

(** The body of a question request as a [dict]: the silent JSON parse,
    else the raw bytes decoded as JSON, else nothing. *)
Definition esplanta_data (req : request) : json :=
  let data :=
    if is_none (req_json_silent req) then
      let raw := req_data req in
      if str_empty raw then JObj []
      else
        match (text <- decode_utf8 raw ;;
               json_loads (if str_empty text then "{}" else text)) with
        | inr d => d
        | inl _ => JObj []
        end
    else req_json_silent req in
  if is_dict data then data else JObj [].

(** The sources of [pregunta], in the order the [or] chain reads them. *)
Definition pregunta_sources (req : request) : py (list json) :=
  let data := esplanta_data req in
  v <- (if is_dict data then py_get data "pregunta" JNull else ret JNull) ;;
  ret [v; multidict_get "pregunta" (req_form req);
       multidict_get "pregunta" (req_args req)].

(** [(a or b or c or '')] *)
Definition or_chain (sources : list json) : json :=
  fold_right py_or (JStr "") sources.

Definition esplanta_field (req : request) : py string :=
  sources <- pregunta_sources req ;;
  py_strip_method (or_chain sources).

Definition es_planta (b : bool) : json := JObj [("es_planta", JBool b)].

Definition es_planta_raw (text : string) : json :=
  JObj [("es_planta", JBool false); ("raw", JStr text)].

(** What follows the call inside the [try] of [esplanta]. *)
Definition esplanta_reply (resp : json) : py outcome :=
  choice <- first_choice resp ;;
  content <- message_content choice ;;
  stripped <- py_strip_method content ;;
  let text := str_lower stripped in
  if str_contains "sí" text || str_contains "si" text || str_contains "yes" text
  then ret (Response (es_planta true) 200)
  else if str_contains "no" text
  then ret (Response (es_planta false) 200)
  else ret (Response (es_planta_raw text) 200).

(** The view function of [POST|GET /esplanta]. *)
Definition esplanta (req : request) : list chat_call * outcome :=
  match esplanta_field req with
  | inl e => ([], Unhandled e)
  | inr pregunta =>
    if str_empty pregunta then ([], Response missing_pregunta 400)
    else
      let call := esplanta_call pregunta in
      ([call],
       match (resp <- create call ;; esplanta_reply resp) with
       | inr out => out
       | inl e => upstream_failed e
       end)
  end.

End Service.

(** [GET /] and [GET /health] *)
Definition root : outcome :=
  Response (JObj [("ok", JBool true); ("service", JStr "plantagotchi");
                  ("endpoints", JArr [JStr "/esplanta"; JStr "/especie"; JStr "/health"])]) 200.

Definition health : outcome := Response (JObj [("ok", JBool true)]) 200.

(** ** What the upstream reply holds *)

(** The reply carries a structured payload whose arguments are [func_args]:
    the path taken by the first branch of [especie]. *)
Definition structured_payload (resp func_args : json) : Prop :=
  exists choice,
    first_choice resp = inr choice
    /\ has_function_call choice = inr true
    /\ function_arguments choice = inr func_args.

(** The reply carries no structured payload and its message content is
    [content]. *)
Definition text_payload (resp content : json) : Prop :=
  exists choice,
    first_choice resp = inr choice
    /\ has_function_call choice = inr false
    /\ message_content choice = inr content.


(** A field that is not there, or holds a string that is blank once
    trimmed. *)
Definition absent_or_blank (v : option json) : Prop :=
  v = None \/ exists s, v = Some (JStr s) /\ py_strip s = "".

(** A humidity field that is not there or holds an integer. *)
Definition absent_or_int (v : option json) : Prop :=
  v = None \/ exists z, v = Some (JInt z).

(** ** What the pattern of the fallback matches, stated on its own *)

Fixpoint all_digits {RT : Runtime} (cs : list N) : bool :=
  match cs with
  | [] => true
  | c :: r => is_digit c && all_digits r
  end.

Fixpoint no_digit {RT : Runtime} (cs : list N) : bool :=
  match cs with
  | [] => true
  | c :: r => negb (is_digit c) && no_digit r
  end.

Definition starts_with_digit {RT : Runtime} (cs : list N) : bool :=
  match cs with
  | c :: _ => is_digit c
  | [] => false
  end.

Definition after_percent (cs : list N) : list N :=
  match cs with
  | b :: r => if (b =? 37)%N then r else cs
  | [] => cs
  end.

(** The value of a sequence of decimal digits. *)
Fixpoint decimal_from {RT : Runtime} (acc : Z) (cs : list N) : Z :=
  match cs with
  | [] => acc
  | c :: r => decimal_from (10 * acc + digit_val c) r
  end.

Definition decimal {RT : Runtime} (cs : list N) : Z := decimal_from 0 cs.

(** [Matches cs gs]: [gs] are, in order of appearance, the digit groups of
    the leftmost non-overlapping matches of [(\d{1,3})%?] in the text whose
    characters are [cs].  A match starts at the first digit met, takes as
    many digits as it can up to three, and swallows a percent sign that
    follows. *)
Inductive Matches {RT : Runtime} : list N -> list (list N) -> Prop :=
| Matches_nil (cs : list N) :
    no_digit cs = true ->
    Matches cs []
| Matches_cons (pre g rest : list N) (gs : list (list N)) :
    no_digit pre = true ->
    all_digits g = true ->
    (1 <= List.length g <= 3)%nat ->
    List.length g = 3%nat \/ starts_with_digit rest = false ->
    Matches (after_percent rest) gs ->
    Matches (pre ++ g ++ rest)%list (g :: gs).

(** The sources of pregunta that the [or] chain passes over: a value that
    is absent or empty for Python, a form or query value that is absent or
    the empty string. *)
Definition empty_value (v : option json) : Prop :=
  v = None \/ exists x, v = Some x /\ py_truthy x = false.

Definition empty_text (v : option string) : Prop :=
  v = None \/ v = Some "".

(** ** Mock collaborators for the worked examples *)

Definition dquote : string := String "034"%char EmptyString.

Definition quoted (s : string) : string := dquote ++ s ++ dquote.

(** A reply of the model client that answers through the function call. *)
Definition function_reply (arguments : json) : json :=
  JObj [("choices", JArr [
    JObj [("index", JInt 0);
          ("message", JObj [("role", JStr "assistant"); ("content", JNull);
                            ("function_call", JObj [("name", JStr "get_species_info");
                                                    ("arguments", arguments)])]);
          ("finish_reason", JStr "stop")]])].

(** A reply of the model client that answers in plain text. *)
Definition text_reply (content : string) : json :=
  JObj [("choices", JArr [
    JObj [("index", JInt 0);
          ("message", JObj [("role", JStr "assistant"); ("content", JStr content)]);
          ("finish_reason", JStr "stop")]])].

(** [{"humedad_tierra":30,"humedad_ambiente":70,"tipo":"exterior"}] *)
Definition sample_arguments_text : string :=
  "{" ++ quoted "humedad_tierra" ++ ":30," ++ quoted "humedad_ambiente" ++ ":70,"
      ++ quoted "tipo" ++ ":" ++ quoted "exterior" ++ "}".

Definition sample_arguments : json :=
  JObj [("humedad_tierra", JInt 30); ("humedad_ambiente", JInt 70);
        ("tipo", JStr "exterior")].

(** [{"tipo":"interior"}] and [{"humedad_tierra":-1,"humedad_ambiente":-7,"tipo":"interior"}] *)
Definition sparse_arguments_text : string :=
  "{" ++ quoted "tipo" ++ ":" ++ quoted "interior" ++ "}".

Definition sparse_arguments : json := JObj [("tipo", JStr "interior")].

Definition negative_arguments_text : string :=
  "{" ++ quoted "humedad_tierra" ++ ":-1," ++ quoted "humedad_ambiente" ++ ":-7,"
      ++ quoted "tipo" ++ ":" ++ quoted "interior" ++ "}".

Definition negative_arguments : json :=
  JObj [("humedad_tierra", JInt (-1)); ("humedad_ambiente", JInt (-7));
        ("tipo", JStr "interior")].

(** A [json.loads] that knows the texts of the examples and rejects the
    rest, a [str(e)] that prints the message or the class. *)
Definition mock_loads (s : string) : py json :=
  match lookup s [(sample_arguments_text, sample_arguments);
                  (sparse_arguments_text, sparse_arguments);
                  (negative_arguments_text, negative_arguments);
                  ("{}", JObj [])] with
  | Some v => ret v
  | None => raise (JSONDecodeError "Expecting value: line 1 column 1 (char 0)")
  end.

Definition mock_str (e : exn) : string :=
  match e with
  | KeyError k => "'" ++ k ++ "'"
  | JSONDecodeError m => m
  | UpstreamError m => m
  | IndexError => "IndexError"
  | TypeError => "TypeError"
  | AttributeError => "AttributeError"
  | ValueError => "ValueError"
  | OverflowError => "OverflowError"
  | UnicodeDecodeError => "UnicodeDecodeError"
  | BadRequest => "400 Bad Request"
  end.

(** A Unicode table that knows the digits of four scripts above ASCII:
    Arabic-Indic, Extended Arabic-Indic, Devanagari and the fullwidth
    forms. *)
Definition digit_block (start c : N) : option digit :=
  if ((start <=? c) && (c <=? start + 9))%N then nth_digit (c - start) else None.

Definition mock_decimal (c : N) : option digit :=
  match digit_block 1632 c, digit_block 1776 c, digit_block 2406 c with
  | Some d, _, _ | None, Some d, _ | None, None, Some d => Some d
  | None, None, None => digit_block 65296 c
  end.

Definition mock_runtime : Runtime := {|
  json_loads := mock_loads;
  decode_utf8 := fun s => ret s;
  str_exn := mock_str;
  str_lower := latin1_lower;
  unicode_decimal := mock_decimal;
  int_max_str_digits := 4300
|}.

(** A POST whose body is the JSON value [body], sent as [text]. *)
Definition json_request (body : json) (text : string) : request := {|
  req_json_force := ret body;
  req_json_silent := body;
  req_data := text;
  req_form := [];
  req_args := []
|}.

(** A GET with a query string and no body. *)
Definition query_request (query : list (string * string)) : request := {|
  req_json_force := raise BadRequest;
  req_json_silent := JNull;
  req_data := "";
  req_form := [];
  req_args := query
|}.

(** [{"especie":"Monstera deliciosa"}] *)
Definition monstera_request : request :=
  json_request (JObj [("especie", JStr "Monstera deliciosa")])
    ("{" ++ quoted "especie" ++ ":" ++ quoted "Monstera deliciosa" ++ "}").

(** [{"pregunta":"Is a fern a plant?"}] *)
Definition fern_request : request :=
  json_request (JObj [("pregunta", JStr "Is a fern a plant?")])
    ("{" ++ quoted "pregunta" ++ ":" ++ quoted "Is a fern a plant?" ++ "}").

(** A model client that always gives the same answer. *)
Definition always (r : py json) : chat_call -> py json := fun _ => r.

(** ** Start-up and further notions *)


Definition is_json_str (v : json) : bool :=
  match v with
  | JStr _ => true
  | _ => false
  end.

(** The values [int] refuses with a TypeError. *)
Definition not_a_number (v : json) : bool :=
  match v with
  | JNull | JArr _ | JObj _ => true
  | _ => false
  end.

(** The same request sent with no body at all. *)
Definition without_body (req : request) : request := {|
  req_json_force := req_json_force req;
  req_json_silent := JNull;
  req_data := "";
  req_form := req_form req;
  req_args := req_args req
|}.

(** The same request with the body recognised as the JSON value [body]. *)
Definition with_json_body (body : json) (req : request) : request := {|
  req_json_force := req_json_force req;
  req_json_silent := body;
  req_data := req_data req;
  req_form := req_form req;
  req_args := req_args req
|}.

(** [json.loads(raw.decode('utf-8') or '{}')] on the bytes of the body. *)
Definition raw_body_json {RT : Runtime} (req : request) : py json :=
  text <- decode_utf8 (req_data req) ;;
  json_loads (if str_empty text then "{}" else text).

(** The body gives no [dict]: it was parsed to something else, or it was
    not parsed and its bytes are empty, undecodable, not JSON, or JSON that
    is not an object. *)
Definition body_unusable {RT : Runtime} (req : request) : Prop :=
  (is_none (req_json_silent req) = false /\ is_dict (req_json_silent req) = false)
  \/ (is_none (req_json_silent req) = true
      /\ (str_empty (req_data req) = true
          \/ forall d, raw_body_json req = inr d -> is_dict d = false)).

(** A [json.loads] given by the table of the texts it accepts. *)
Definition table_runtime (table : list (string * json)) : Runtime := {|
  json_loads := fun s =>
    match lookup s table with
    | Some v => ret v
    | None => raise (JSONDecodeError "Expecting value: line 1 column 1 (char 0)")
    end;
  decode_utf8 := fun s => ret s;
  str_exn := mock_str;
  str_lower := latin1_lower;
  unicode_decimal := mock_decimal;
  int_max_str_digits := 4300
|}.

(** A request whose body is [text], not declared as JSON, with a query
    string. *)
Definition raw_request (text : string) (query : list (string * string)) : request := {|
  req_json_force := raise BadRequest;
  req_json_silent := JNull;
  req_data := text;
  req_form := [];
  req_args := query
|}.

(** Arguments whose humidities are strings, and arguments whose first
    humidity is null, as the texts [json.loads] reads them from. *)
Definition string_numbers_text : string :=
  "{" ++ quoted "humedad_tierra" ++ ":" ++ quoted "30" ++ ","
      ++ quoted "humedad_ambiente" ++ ":" ++ quoted "250" ++ ","
      ++ quoted "tipo" ++ ":" ++ quoted "exterior" ++ "}".

Definition string_numbers : list (string * json) :=
  [("humedad_tierra", JStr "30"); ("humedad_ambiente", JStr "250");
   ("tipo", JStr "exterior")].

Definition null_field_text : string :=
  "{" ++ quoted "humedad_tierra" ++ ":null," ++ quoted "humedad_ambiente" ++ ":60,"
      ++ quoted "tipo" ++ ":" ++ quoted "interior" ++ "}".

Definition null_field : list (string * json) :=
  [("humedad_tierra", JNull); ("humedad_ambiente", JInt 60);
   ("tipo", JStr "interior")].



(** [{"pregunta":"Is moss a plant?"}] *)
Definition moss_text : string :=
  "{" ++ quoted "pregunta" ++ ":" ++ quoted "Is moss a plant?" ++ "}".

Definition moss_body : list (string * json) :=
  [("pregunta", JStr "Is moss a plant?")].

(** [{"humedad_tierra":120,"humedad_ambiente":1000,"tipo":"Exterior"}] *)
Definition excessive_text : string :=
  "{" ++ quoted "humedad_tierra" ++ ":120," ++ quoted "humedad_ambiente" ++ ":1000,"
      ++ quoted "tipo" ++ ":" ++ quoted "Exterior" ++ "}".

Definition excessive : list (string * json) :=
  [("humedad_tierra", JInt 120); ("humedad_ambiente", JInt 1000);
   ("tipo", JStr "Exterior")].

(** * Properties *)

(** ** The clamp of the structured path *)

Lemma clamp_humidity_range (h : Z) : 0 <= clamp_humidity h <= 100.
Proof.
  unfold clamp_humidity.
  destruct (h <? 0) eqn:Hlo; destruct (h >? 100) eqn:Hhi; simpl;
    destruct (h =? -1) eqn:Hm; simpl; lia.
Qed.

Lemma clamp_humidity_valid (h : Z) : 0 <= h <= 100 -> clamp_humidity h = h.
Proof.
  intros [Hlo Hhi]. unfold clamp_humidity.
  apply Z.ltb_ge in Hlo. rewrite Hlo.
  assert (Hgt : (h >? 100) = false) by (rewrite Z.gtb_ltb; apply Z.ltb_ge; lia).
  rewrite Hgt. reflexivity.
Qed.

Lemma clamp_humidity_sentinel : clamp_humidity (-1) = 50.
Proof. reflexivity. Qed.

Lemma clamp_humidity_negative (h : Z) : h < 0 -> h <> -1 -> clamp_humidity h = 0.
Proof.
  intros Hneg Hm. unfold clamp_humidity.
  apply Z.ltb_lt in Hneg as Hb. rewrite Hb. simpl.
  apply Z.eqb_neq in Hm. rewrite Hm. simpl. lia.
Qed.

Lemma str_empty_false (s : string) : s <> "" -> str_empty s = false.
Proof. destruct s; [congruence | reflexivity]. Qed.

Lemma str_empty_true (s : string) : str_empty s = true -> s = "".
Proof. destruct s; [reflexivity | discriminate]. Qed.

(** ** How the handlers unfold along each path *)

Section Paths.

Context {RT : Runtime}.
Variable create : chat_call -> py json.

Lemma especie_resolved (req : request) (name : string) :
  especie_field req = inr name -> name <> "" ->
  especie create req =
  ([especie_call name],
   match (resp <- create (especie_call name) ;; especie_reply resp) with
   | inr out => out
   | inl e => upstream_failed e
   end).
Proof.
  intros Hfield Hname. unfold especie.
  rewrite Hfield, (str_empty_false _ Hname). reflexivity.
Qed.

Lemma esplanta_resolved (req : request) (pregunta : string) :
  esplanta_field req = inr pregunta -> pregunta <> "" ->
  esplanta create req =
  ([esplanta_call pregunta],
   match (resp <- create (esplanta_call pregunta) ;; esplanta_reply resp) with
   | inr out => out
   | inl e => upstream_failed e
   end).
Proof.
  intros Hfield Hq. unfold esplanta.
  rewrite Hfield, (str_empty_false _ Hq). reflexivity.
Qed.

Lemma especie_reply_structured (resp func_args : json) :
  structured_payload resp func_args ->
  especie_reply resp =
  inr (match especie_structured func_args with
       | inr out => out
       | inl e => parse_failed e func_args
       end).
Proof.
  intros (choice & Hchoice & Hfc & Hargs). unfold especie_reply.
  rewrite Hchoice. simpl. rewrite Hfc. simpl. rewrite Hargs. simpl.
  destruct (especie_structured func_args); reflexivity.
Qed.

Lemma especie_reply_text (resp content : json) :
  text_payload resp content ->
  especie_reply resp =
  (nums <- py_findall content ;;
   ht <- nth_int 0 nums ;;
   ha <- nth_int 1 nums ;;
   ret (Response (fallback_body ht ha content) 200)).
Proof.
  intros (choice & Hchoice & Hfc & Hcontent). unfold especie_reply.
  rewrite Hchoice. simpl. rewrite Hfc. simpl.
  unfold especie_fallback. rewrite Hcontent. reflexivity.
Qed.

(** Reading a humidity field that is absent or an integer never fails:
    the default is the sentinel. *)
Lemma humidity_field_read (fields : list (string * json)) (k : string) :
  absent_or_int (lookup k fields) ->
  exists z,
    (v <- py_get (JObj fields) k (JInt (-1)) ;; py_int v) = inr z
    /\ (lookup k fields = None -> z = -1)
    /\ (forall h, lookup k fields = Some (JInt h) -> z = h).
Proof.
  intros [Habs | [h Hint]].
  - exists (-1). simpl. rewrite Habs. simpl.
    repeat split; try reflexivity. intros h Hh. discriminate.
  - exists h. simpl. rewrite Hint. simpl.
    repeat split; try reflexivity; intros; congruence.
Qed.

(** The structured path on an object whose humidity fields are absent or
    integers: both are read, clamped and sent back with the tipo. *)
Lemma especie_structured_object (s : string) (fields : list (string * json)) :
  json_loads s = inr (JObj fields) ->
  absent_or_int (lookup "humedad_tierra" fields) ->
  absent_or_int (lookup "humedad_ambiente" fields) ->
  exists ht ha,
    especie_structured (JStr s) =
    inr (Response
           (species_body (clamp_humidity ht) (clamp_humidity ha)
              (normal_tipo (match lookup "tipo" fields with
                            | Some t => t
                            | None => JStr ""
                            end))) 200)
    /\ (lookup "humedad_tierra" fields = None -> ht = -1)
    /\ (forall h, lookup "humedad_tierra" fields = Some (JInt h) -> ht = h)
    /\ (lookup "humedad_ambiente" fields = None -> ha = -1)
    /\ (forall h, lookup "humedad_ambiente" fields = Some (JInt h) -> ha = h).
Proof.
  intros Hloads Hht Hha.
  destruct (humidity_field_read fields "humedad_tierra" Hht) as (ht & Eht & Hht1 & Hht2).
  destruct (humidity_field_read fields "humedad_ambiente" Hha) as (ha & Eha & Hha1 & Hha2).
  exists ht, ha. split; [| auto].
  unfold especie_structured. simpl py_json_loads. rewrite Hloads.
  simpl bind at 1.
  unfold bind in Eht, Eha |- *. simpl py_get in *.
  destruct (lookup "humedad_tierra" fields) as [v1 |];
    destruct (lookup "humedad_ambiente" fields) as [v2 |];
    simpl in *; rewrite ?Eht; simpl; rewrite ?Eha; simpl;
    try (injection Eht as <-); try (injection Eha as <-); reflexivity.
Qed.

End Paths.

(** ** The species endpoint, structured path *)

Lemma is_str_eq (k : string) (v : json) : is_str k v = true -> v = JStr k.
Proof.
  destruct v; simpl; try discriminate.
  intros H. apply String.eqb_eq in H. now subst.
Qed.

Lemma normal_tipo_literal (tipo : json) :
  normal_tipo tipo = JStr "interior" \/ normal_tipo tipo = JStr "exterior".
Proof.
  unfold normal_tipo.
  destruct (is_str "interior" tipo) eqn:Hi; simpl.
  - left. now apply is_str_eq.
  - destruct (is_str "exterior" tipo) eqn:He; simpl.
    + right. now apply is_str_eq.
    + now left.
Qed.

(** Whatever the arguments of the function call hold, an answer of the
    structured path carries two humidities within 0..100 and one of the two
    literals. *)
Lemma structured_answer_in_range {RT : Runtime} (func_args : json) (out : outcome) :
  especie_structured func_args = inr out ->
  exists ht ha tipo,
    out = Response (species_body ht ha tipo) 200
    /\ 0 <= ht <= 100 /\ 0 <= ha <= 100
    /\ (tipo = JStr "interior" \/ tipo = JStr "exterior").
Proof.
  unfold especie_structured, bind. intros H.
  destruct (py_json_loads func_args) as [? | args]; [discriminate |].
  destruct (py_get args "humedad_tierra" (JInt (-1))) as [? | v1]; [discriminate |].
  destruct (py_int v1) as [? | ht]; [discriminate |].
  destruct (py_get args "humedad_ambiente" (JInt (-1))) as [? | v2]; [discriminate |].
  destruct (py_int v2) as [? | ha]; [discriminate |].
  destruct (py_get args "tipo" (JStr "")) as [? | tipo]; [discriminate |].
  injection H as <-.
  exists (clamp_humidity ht), (clamp_humidity ha), (normal_tipo tipo).
  split; [reflexivity |].
  split; [apply clamp_humidity_range |].
  split; [apply clamp_humidity_range | apply normal_tipo_literal].
Qed.

(** C1 (failing input): the humidity values of the text fallback are sent
    back as they were read.  The model answers in plain text, "Water at 250%
    and 999%", with no function call; the 200 response carries
    humedad_tierra 250 and humedad_ambiente 999, outside 0..100, where the
    structured path would have clamped both to 100. *)
Theorem C1_fallback_humidity_not_clamped :
  especie (RT := mock_runtime)
    (always (inr (text_reply "Water at 250% and 999%"))) monstera_request
  = ([especie_call "Monstera deliciosa"],
     Response
       (JObj [("humedad_tierra", JInt 250); ("humedad_ambiente", JInt 999);
              ("tipo", JStr "interior");
              ("note", JStr "extracted from text fallback");
              ("raw_text", JStr "Water at 250% and 999%")]) 200).
Proof. vm_compute. reflexivity. Qed.

(** C6: a structured payload whose humidity fields are integers within
    0..100 and whose tipo is one of the two literals is sent back unchanged
    with status 200. *)
Theorem C6_valid_payload_returned_unchanged
  {RT : Runtime} (create : chat_call -> py json) (req : request) (name : string)
  (resp : json) (s : string) (fields : list (string * json))
  (ht ha : Z) (tipo : string) :
  especie_field req = inr name ->
  str_empty name = false ->
  create (especie_call name) = inr resp ->
  structured_payload resp (JStr s) ->
  json_loads s = inr (JObj fields) ->
  lookup "humedad_tierra" fields = Some (JInt ht) -> 0 <= ht <= 100 ->
  lookup "humedad_ambiente" fields = Some (JInt ha) -> 0 <= ha <= 100 ->
  lookup "tipo" fields = Some (JStr tipo) ->
  tipo = "interior" \/ tipo = "exterior" ->
  especie create req
  = ([especie_call name],
     Response
       (JObj [("humedad_tierra", JInt ht); ("humedad_ambiente", JInt ha);
              ("tipo", JStr tipo)]) 200).
Proof.
  intros Hfield Hname Hcall Hpayload Hloads Hht Rht Hha Rha Htipo Rtipo.
  rewrite (especie_resolved create req name Hfield)
    by (intros ->; discriminate).
  rewrite Hcall. simpl bind.
  rewrite (especie_reply_structured resp (JStr s) Hpayload).
  destruct (especie_structured_object s fields Hloads) as (ht' & ha' & E & T1 & T2 & A1 & A2).
  { right. now exists ht. }
  { right. now exists ha. }
  rewrite E, Htipo. rewrite (T2 ht Hht), (A2 ha Hha).
  rewrite !clamp_humidity_valid by assumption.
  unfold species_body, normal_tipo.
  destruct Rtipo as [-> | ->]; reflexivity.
Qed.

Lemma C6_sample_payload_witness :
  especie (RT := mock_runtime)
    (always (inr (function_reply (JStr sample_arguments_text)))) monstera_request
  = ([especie_call "Monstera deliciosa"],
     Response
       (JObj [("humedad_tierra", JInt 30); ("humedad_ambiente", JInt 70);
              ("tipo", JStr "exterior")]) 200).
Proof.
  apply (C6_valid_payload_returned_unchanged (RT := mock_runtime)
           (always (inr (function_reply (JStr sample_arguments_text))))
           monstera_request "Monstera deliciosa"
           (function_reply (JStr sample_arguments_text))
           sample_arguments_text
           [("humedad_tierra", JInt 30); ("humedad_ambiente", JInt 70);
            ("tipo", JStr "exterior")]
           30 70 "exterior").
  - reflexivity.
  - reflexivity.
  - reflexivity.
  - eexists. repeat split; reflexivity.
  - reflexivity.
  - reflexivity.
  - lia.
  - reflexivity.
  - lia.
  - reflexivity.
  - right. reflexivity.
Defined.

(** C8: when the arguments string of the structured payload is not JSON,
    the answer is status 500 with the error "failed parsing model
    arguments", the message of the failure as detail and the arguments
    string itself as raw; no default value is put in its place. *)
Theorem C8_malformed_arguments_reported
  {RT : Runtime} (create : chat_call -> py json) (req : request) (name : string)
  (resp : json) (s : string) (e : exn) :
  especie_field req = inr name ->
  str_empty name = false ->
  create (especie_call name) = inr resp ->
  structured_payload resp (JStr s) ->
  json_loads s = inl e ->
  especie create req
  = ([especie_call name],
     Response
       (JObj [("error", JStr "failed parsing model arguments");
              ("detail", JStr (str_exn e)); ("raw", JStr s)]) 500).
Proof.
  intros Hfield Hname Hcall Hpayload Hloads.
  rewrite (especie_resolved create req name Hfield)
    by (intros ->; discriminate).
  rewrite Hcall. simpl bind.
  rewrite (especie_reply_structured resp (JStr s) Hpayload).
  unfold especie_structured. simpl py_json_loads. rewrite Hloads.
  reflexivity.
Qed.

Lemma C8_truncated_arguments_witness :
  especie (RT := mock_runtime)
    (always (inr (function_reply (JStr "{humedad_tierra: 30")))) monstera_request
  = ([especie_call "Monstera deliciosa"],
     Response
       (JObj [("error", JStr "failed parsing model arguments");
              ("detail", JStr "Expecting value: line 1 column 1 (char 0)");
              ("raw", JStr "{humedad_tierra: 30")]) 500).
Proof.
  apply (C8_malformed_arguments_reported (RT := mock_runtime)
           (always (inr (function_reply (JStr "{humedad_tierra: 30"))))
           monstera_request "Monstera deliciosa"
           (function_reply (JStr "{humedad_tierra: 30"))
           "{humedad_tierra: 30"
           (JSONDecodeError "Expecting value: line 1 column 1 (char 0)")).
  - reflexivity.
  - reflexivity.
  - reflexivity.
  - eexists. repeat split; reflexivity.
  - reflexivity.
Defined.

(** C10: on the structured path a humidity field equal to -1 and a
    humidity field that is absent are both sent back as 50, while any other
    negative integer is sent back as 0. *)
Theorem C10_minus_one_reads_as_absent
  {RT : Runtime} (create : chat_call -> py json) (req : request) (name : string)
  (resp : json) (s : string) (fields : list (string * json)) :
  especie_field req = inr name ->
  str_empty name = false ->
  create (especie_call name) = inr resp ->
  structured_payload resp (JStr s) ->
  json_loads s = inr (JObj fields) ->
  absent_or_int (lookup "humedad_tierra" fields) ->
  absent_or_int (lookup "humedad_ambiente" fields) ->
  exists ht ha tipo,
    especie create req
    = ([especie_call name],
       Response
         (JObj [("humedad_tierra", JInt ht); ("humedad_ambiente", JInt ha);
                ("tipo", tipo)]) 200)
    /\ (lookup "humedad_tierra" fields = None
        \/ lookup "humedad_tierra" fields = Some (JInt (-1)) -> ht = 50)
    /\ (forall h, lookup "humedad_tierra" fields = Some (JInt h) ->
                  h < 0 -> h <> -1 -> ht = 0)
    /\ (lookup "humedad_ambiente" fields = None
        \/ lookup "humedad_ambiente" fields = Some (JInt (-1)) -> ha = 50)
    /\ (forall h, lookup "humedad_ambiente" fields = Some (JInt h) ->
                  h < 0 -> h <> -1 -> ha = 0).
Proof.
  intros Hfield Hname Hcall Hpayload Hloads Hht Hha.
  rewrite (especie_resolved create req name Hfield)
    by (intros ->; discriminate).
  rewrite Hcall. simpl bind.
  rewrite (especie_reply_structured resp (JStr s) Hpayload).
  destruct (especie_structured_object s fields Hloads Hht Hha)
    as (ht & ha & E & T1 & T2 & A1 & A2).
  rewrite E.
  eexists _, _, _. split; [reflexivity |].
  repeat split.
  - intros [Hnone | Hm].
    + rewrite (T1 Hnone). reflexivity.
    + rewrite (T2 _ Hm). reflexivity.
  - intros h Hh Hneg Hm. rewrite (T2 _ Hh). now apply clamp_humidity_negative.
  - intros [Hnone | Hm].
    + rewrite (A1 Hnone). reflexivity.
    + rewrite (A2 _ Hm). reflexivity.
  - intros h Hh Hneg Hm. rewrite (A2 _ Hh). now apply clamp_humidity_negative.
Qed.

Lemma C10_minus_one_and_minus_seven_witness :
  exists ht ha tipo,
    especie (RT := mock_runtime)
      (always (inr (function_reply (JStr negative_arguments_text)))) monstera_request
    = ([especie_call "Monstera deliciosa"],
       Response
         (JObj [("humedad_tierra", JInt ht); ("humedad_ambiente", JInt ha);
                ("tipo", tipo)]) 200)
    /\ ht = 50 /\ ha = 0.
Proof.
  destruct (C10_minus_one_reads_as_absent (RT := mock_runtime)
              (always (inr (function_reply (JStr negative_arguments_text))))
              monstera_request "Monstera deliciosa"
              (function_reply (JStr negative_arguments_text))
              negative_arguments_text
              [("humedad_tierra", JInt (-1)); ("humedad_ambiente", JInt (-7));
               ("tipo", JStr "interior")])
    as (ht & ha & tipo & E & T1 & _ & _ & A2).
  - reflexivity.
  - reflexivity.
  - reflexivity.
  - eexists. repeat split; reflexivity.
  - reflexivity.
  - right. exists (-1). reflexivity.
  - right. exists (-7). reflexivity.
  - exists ht, ha, tipo. split; [exact E |]. split.
    + apply T1. right. reflexivity.
    + apply (A2 (-7)); [reflexivity | lia | lia].
Defined.

(** ** Failures and their status codes *)

Lemma especie_fallback_status {RT : Runtime} (choice : json) (out : outcome) :
  especie_fallback choice = inr out -> exists body, out = Response body 200.
Proof.
  unfold especie_fallback, bind. intros H.
  destruct (message_content choice) as [? | text]; [discriminate |].
  destruct (py_findall text) as [? | nums]; [discriminate |].
  destruct (nth_int 0 nums) as [? | ht]; [discriminate |].
  destruct (nth_int 1 nums) as [? | ha]; [discriminate |].
  injection H as <-. eauto.
Qed.

Lemma especie_reply_status {RT : Runtime} (resp : json) (out : outcome) :
  especie_reply resp = inr out ->
  exists body status, out = Response body status /\ (status = 200 \/ status = 500).
Proof.
  unfold especie_reply, bind. intros H.
  destruct (first_choice resp) as [? | choice]; [discriminate |].
  destruct (has_function_call choice) as [? | [|]]; [discriminate | |].
  - destruct (function_arguments choice) as [? | func_args]; [discriminate |].
    destruct (especie_structured func_args) as [e | out'] eqn:E.
    + injection H as <-. unfold parse_failed. eauto.
    + injection H as <-.
      destruct (structured_answer_in_range func_args out' E) as (ht & ha & tipo & -> & _).
      eauto.
  - destruct (especie_fallback_status choice out H) as [body ->]. eauto.
Qed.

Lemma esplanta_reply_status {RT : Runtime} (resp : json) (out : outcome) :
  esplanta_reply resp = inr out -> exists body, out = Response body 200.
Proof.
  unfold esplanta_reply, bind. intros H.
  destruct (first_choice resp) as [? | choice]; [discriminate |].
  destruct (message_content choice) as [? | content]; [discriminate |].
  destruct (py_strip_method content) as [? | stripped]; [discriminate |].
  destruct (_ || _); [injection H as <-; eauto |].
  destruct (str_contains "no" _); injection H as <-; eauto.
Qed.

(** An exception leaves [especie] exactly when reading the field raised
    it; likewise for [esplanta]. *)
Lemma especie_unhandled_iff {RT : Runtime} (create : chat_call -> py json)
  (req : request) (e : exn) :
  snd (especie create req) = Unhandled e <-> especie_field req = inl e.
Proof.
  unfold especie. destruct (especie_field req) as [e' | name]; simpl.
  - split; congruence.
  - split; [| discriminate].
    destruct (str_empty name); simpl; [discriminate |].
    destruct (create (especie_call name)) as [? | resp]; simpl; [discriminate |].
    destruct (especie_reply resp) as [? | out] eqn:E; [discriminate |].
    destruct (especie_reply_status resp out E) as (body & st & -> & _). discriminate.
Qed.

Lemma esplanta_unhandled_iff {RT : Runtime} (create : chat_call -> py json)
  (req : request) (e : exn) :
  snd (esplanta create req) = Unhandled e <-> esplanta_field req = inl e.
Proof.
  unfold esplanta. destruct (esplanta_field req) as [e' | pregunta]; simpl.
  - split; congruence.
  - split; [| discriminate].
    destruct (str_empty pregunta); simpl; [discriminate |].
    destruct (create (esplanta_call pregunta)) as [? | resp]; simpl; [discriminate |].
    destruct (esplanta_reply resp) as [? | out] eqn:E; [discriminate |].
    destruct (esplanta_reply_status resp out E) as (body & ->). discriminate.
Qed.




(** ** Missing input *)

Lemma py_or_blank (v rest : json) (s : string) :
  v = JNull \/ (exists t, v = JStr t /\ py_strip t = "") ->
  rest = JStr s -> py_strip s = "" ->
  exists r, py_or v rest = JStr r /\ py_strip r = "".
Proof.
  intros [-> | (t & -> & Ht)] -> Hs.
  - exists s. auto.
  - unfold py_or. simpl. destruct (str_empty t); simpl; eauto.
Qed.

Lemma blank_source (v : option json) :
  absent_or_blank v ->
  let x := match v with Some x => x | None => JNull end in
  x = JNull \/ (exists t, x = JStr t /\ py_strip t = "").
Proof.
  intros [-> | (s & -> & Hs)]; simpl; eauto.
Qed.

Lemma multidict_get_option (k : string) (d : list (string * string)) :
  multidict_get k d
  = match option_map JStr (lookup k d) with Some x => x | None => JNull end.
Proof. unfold multidict_get. destruct (lookup k d); reflexivity. Qed.

(** C7 (counterexample): a POST /especie whose body is the JSON string
    "Monstera deliciosa" holds no especie field, yet the answer is not the
    400 error: a string has no [get], AttributeError is raised at the first
    line of the handler and leaves it. *)
Lemma C7_string_body_is_not_answered_400 :
  especie (RT := mock_runtime) (always (inr (text_reply "40% and 60%")))
    (json_request (JStr "Monstera deliciosa") (quoted "Monstera deliciosa"))
  = ([], Unhandled AttributeError).
Proof. vm_compute. reflexivity. Qed.

(** C7 (amended): when the body of a species request is a JSON object in
    which especie is absent or blank once trimmed, and when the pregunta of
    a question request is absent or blank in the body, in the form and in
    the query string, the answer is status 400 with the documented error
    body, and no call is made to the model client. *)
Theorem C7_missing_field_rejected_without_call
  {RT : Runtime} (create : chat_call -> py json) (req1 req2 : request)
  (fields1 fields2 : list (string * json)) :
  req_json_force req1 = inr (JObj fields1) ->
  absent_or_blank (lookup "especie" fields1) ->
  esplanta_data req2 = JObj fields2 ->
  absent_or_blank (lookup "pregunta" fields2) ->
  absent_or_blank (option_map JStr (lookup "pregunta" (req_form req2))) ->
  absent_or_blank (option_map JStr (lookup "pregunta" (req_args req2))) ->
  especie create req1
  = ([], Response (JObj [("error", JStr "missing 'especie' in JSON body")]) 400)
  /\ esplanta create req2
     = ([], Response (JObj [("error", JStr "missing 'pregunta' in JSON body")]) 400).
Proof.
  intros Hbody Hesp Hdata Hq Hform Hargs. split.
  - unfold especie, especie_field. rewrite Hbody. simpl.
    destruct (py_or_blank _ (JStr "") "" (blank_source _ Hesp) eq_refl eq_refl)
      as (r & Hr & Hblank).
    rewrite Hr. simpl. rewrite Hblank. reflexivity.
  - unfold esplanta, esplanta_field, pregunta_sources. rewrite Hdata. simpl.
    rewrite !multidict_get_option.
    destruct (py_or_blank _ (JStr "") "" (blank_source _ Hargs) eq_refl eq_refl)
      as (r3 & Hr3 & Hb3).
    destruct (py_or_blank _ _ r3 (blank_source _ Hform) Hr3 Hb3) as (r2 & Hr2 & Hb2).
    destruct (py_or_blank _ _ r2 (blank_source _ Hq) Hr2 Hb2) as (r1 & Hr1 & Hb1).
    simpl in Hr1, Hr2, Hr3. rewrite Hr1. simpl. rewrite Hb1. reflexivity.
Qed.

Lemma C7_blank_fields_witness :
  especie (RT := mock_runtime) (always (inr (text_reply "no")))
    (json_request (JObj [("especie", JStr "   ")])
       ("{" ++ quoted "especie" ++ ":" ++ quoted "   " ++ "}"))
  = ([], Response (JObj [("error", JStr "missing 'especie' in JSON body")]) 400)
  /\ esplanta (RT := mock_runtime) (always (inr (text_reply "no")))
       (query_request [("q", "fern"); ("pregunta", "  ")])
     = ([], Response (JObj [("error", JStr "missing 'pregunta' in JSON body")]) 400).
Proof.
  apply (C7_missing_field_rejected_without_call (RT := mock_runtime) _ _ _
           [("especie", JStr "   ")] []).
  - reflexivity.
  - right. exists "   ". split; reflexivity.
  - reflexivity.
  - left. reflexivity.
  - left. reflexivity.
  - right. exists "  ". split; reflexivity.
Defined.

(** ** The question endpoint *)

Lemma empty_value_falsy (v : option json) :
  empty_value v ->
  py_truthy (match v with Some x => x | None => JNull end) = false.
Proof. intros [-> | (x & -> & Hx)]; [reflexivity | exact Hx]. Qed.

Lemma empty_text_falsy (k : string) (d : list (string * string)) :
  empty_text (lookup k d) -> py_truthy (multidict_get k d) = false.
Proof. unfold multidict_get. intros [-> | ->]; reflexivity. Qed.

Lemma multidict_get_text (k : string) (d : list (string * string)) (s : string) :
  lookup k d = Some s -> multidict_get k d = JStr s.
Proof. unfold multidict_get. now intros ->. Qed.

(** The field read from a request whose body resolves to the object
    [fields]. *)
Lemma esplanta_field_sources {RT : Runtime} (req : request)
  (fields : list (string * json)) :
  esplanta_data req = JObj fields ->
  esplanta_field req
  = py_strip_method
      (or_chain [match lookup "pregunta" fields with Some x => x | None => JNull end;
                 multidict_get "pregunta" (req_form req);
                 multidict_get "pregunta" (req_args req)]).
Proof.
  intros Hdata. unfold esplanta_field, pregunta_sources. rewrite Hdata. reflexivity.
Qed.

(** C2 (counterexample): the body holds a pregunta of three spaces and the
    query string holds "Is a fern a plant?".  The blank body value is not
    empty, so the [or] chain stops at it; trimmed, it is empty and the
    answer is the 400 error, the query value being ignored. *)
Lemma C2_blank_body_value_shadows_query :
  py_strip "   " = ""
  /\ py_strip "Is a fern a plant?" = "Is a fern a plant?"
  /\ esplanta (RT := mock_runtime) (always (inr (text_reply "sí")))
       {| req_json_force := inr (JObj [("pregunta", JStr "   ")]);
          req_json_silent := JObj [("pregunta", JStr "   ")];
          req_data := "{" ++ quoted "pregunta" ++ ":" ++ quoted "   " ++ "}";
          req_form := [];
          req_args := [("pregunta", "Is a fern a plant?")] |}
     = ([], Response (JObj [("error", JStr "missing 'pregunta' in JSON body")]) 400).
Proof. vm_compute. repeat split; reflexivity. Qed.

(** C2 (amended): the pregunta is looked for in the body, then in the
    form, then in the query string, the body being the parsed JSON body when
    it is an object and otherwise the object the raw bytes decode to.  The
    first value that is not empty wins and is trimmed afterwards: a string
    of the body wins whatever the form and the query hold; the form wins
    when the body has none; the query wins when neither has; a source is
    passed over only when its value is absent or empty.  When the value that
    wins is blank the request is rejected with the 400 error, whatever the
    later sources hold; otherwise the model is asked the trimmed value. *)
Theorem C2_first_non_empty_source_wins
  {RT : Runtime} (create : chat_call -> py json) (req : request)
  (fields : list (string * json)) :
  esplanta_data req = JObj fields ->
  let body := lookup "pregunta" fields in
  let form := lookup "pregunta" (req_form req) in
  let query := lookup "pregunta" (req_args req) in
  (is_dict (req_json_silent req) = true -> req_json_silent req = JObj fields)
  /\ (forall d, is_none (req_json_silent req) = true ->
                str_empty (req_data req) = false ->
                raw_body_json req = inr (JObj d) -> d = fields)
  /\ (forall s, body = Some (JStr s) -> str_empty s = false ->
                esplanta_field req = inr (py_strip s))
  /\ (forall s, empty_value body -> form = Some s -> str_empty s = false ->
                esplanta_field req = inr (py_strip s))
  /\ (forall s, empty_value body -> empty_text form -> query = Some s ->
                str_empty s = false ->
                esplanta_field req = inr (py_strip s))
  /\ (empty_value body -> empty_text form -> empty_text query ->
      esplanta_field req = inr "")
  /\ (forall q, esplanta_field req = inr q ->
        (q = "" ->
         esplanta create req
         = ([], Response (JObj [("error", JStr "missing 'pregunta' in JSON body")]) 400))
        /\ (str_empty q = false ->
            fst (esplanta create req) = [esplanta_call q])).
Proof.
  intros Hdata body form query.
  pose proof (esplanta_field_sources req fields Hdata) as Hfield.
  subst body form query.
  split; [| split; [| split; [| split; [| split; [| split]]]]].
  - intros Hdict. unfold esplanta_data in Hdata.
    destruct (req_json_silent req); try discriminate. exact Hdata.
  - intros d Hnone Hraw Hjson. unfold esplanta_data in Hdata.
    unfold raw_body_json in Hjson.
    rewrite Hnone, Hraw, Hjson in Hdata. simpl in Hdata. congruence.
  - intros s Hbody Hs. rewrite Hfield, Hbody.
    unfold or_chain. simpl. unfold py_or at 1. simpl. now rewrite Hs.
  - intros s Hbody Hform Hs. rewrite Hfield.
    rewrite (multidict_get_text _ _ _ Hform).
    unfold or_chain. simpl. unfold py_or at 1.
    rewrite (empty_value_falsy _ Hbody).
    unfold py_or at 1. simpl. now rewrite Hs.
  - intros s Hbody Hform Hquery Hs. rewrite Hfield.
    rewrite (multidict_get_text _ _ _ Hquery).
    unfold or_chain. simpl. unfold py_or at 1.
    rewrite (empty_value_falsy _ Hbody).
    unfold py_or at 1. rewrite (empty_text_falsy _ _ Hform).
    unfold py_or at 1. simpl. now rewrite Hs.
  - intros Hbody Hform Hquery. rewrite Hfield. unfold or_chain. simpl.
    unfold py_or.
    rewrite (empty_value_falsy _ Hbody), (empty_text_falsy _ _ Hform),
      (empty_text_falsy _ _ Hquery).
    reflexivity.
  - intros q Hq. unfold esplanta. rewrite Hq. split.
    + intros ->. reflexivity.
    + intros ->. reflexivity.
Qed.

Lemma C2_priority_witness :
  fst (esplanta (RT := mock_runtime) (always (inr (text_reply "sí")))
         {| req_json_force := inr (JObj [("pregunta", JStr " Is a fern a plant? ")]);
            req_json_silent := JObj [("pregunta", JStr " Is a fern a plant? ")];
            req_data := "{" ++ quoted "pregunta" ++ ":"
                            ++ quoted " Is a fern a plant? " ++ "}";
            req_form := [("pregunta", "Is a car a plant?")];
            req_args := [("pregunta", "Is a stone a plant?")] |})
  = [esplanta_call "Is a fern a plant?"].
Proof.
  destruct (C2_first_non_empty_source_wins (RT := mock_runtime)
              (always (inr (text_reply "sí")))
              {| req_json_force := inr (JObj [("pregunta", JStr " Is a fern a plant? ")]);
                 req_json_silent := JObj [("pregunta", JStr " Is a fern a plant? ")];
                 req_data := "{" ++ quoted "pregunta" ++ ":"
                                 ++ quoted " Is a fern a plant? " ++ "}";
                 req_form := [("pregunta", "Is a car a plant?")];
                 req_args := [("pregunta", "Is a stone a plant?")] |}
              [("pregunta", JStr " Is a fern a plant? ")])
    as (_ & _ & Hbody & _ & _ & _ & Hanswer).
  - reflexivity.
  - apply (Hanswer "Is a fern a plant?").
    + apply (Hbody " Is a fern a plant? "); reflexivity.
    + reflexivity.
Defined.



(** ** The pattern of the text fallback *)

Section Pattern.

Context {RT : Runtime}.

Lemma take_digits_all (n : nat) (cs : list N) : all_digits (take_digits n cs) = true.
Proof.
  revert cs. induction n as [| n IH]; intros [| a r]; simpl; try reflexivity.
  destruct (is_digit a) eqn:E; simpl; [| reflexivity].
  now rewrite E, IH.
Qed.

Lemma take_digits_length (n : nat) (cs : list N) :
  (List.length (take_digits n cs) <= n)%nat.
Proof.
  revert cs. induction n as [| n IH]; intros [| a r]; simpl; try lia.
  destruct (is_digit a); simpl; [specialize (IH r) |]; lia.
Qed.

Lemma take_digits_split (n : nat) (cs : list N) :
  cs = (take_digits n cs ++ drop (List.length (take_digits n cs)) cs)%list.
Proof.
  revert cs. induction n as [| n IH]; intros [| a r]; simpl; try reflexivity.
  destruct (is_digit a); simpl; [| reflexivity].
  f_equal. apply IH.
Qed.

Lemma take_digits_maximal (n : nat) (cs : list N) :
  List.length (take_digits n cs) = n
  \/ starts_with_digit (drop (List.length (take_digits n cs)) cs) = false.
Proof.
  revert cs. induction n as [| n IH]; intros [| a r]; simpl; auto.
  destruct (is_digit a) eqn:E; simpl.
  - destruct (IH r) as [H | H]; [left; lia | now right].
  - now right.
Qed.

Lemma drop_length (n : nat) (cs : list N) :
  (List.length (drop n cs) <= List.length cs - n)%nat.
Proof.
  revert cs. induction n as [| n IH]; intros [| a r]; simpl; try lia.
  apply IH.
Qed.

Lemma drop_next (n : nat) (cs : list N) (a : N) (r : list N) :
  drop n cs = (a :: r)%list -> drop (S n) cs = r.
Proof.
  revert cs. induction n as [| n IH]; intros cs H.
  - simpl in H. subst cs. reflexivity.
  - destruct cs as [| b t]; simpl in H; [discriminate |].
    change (drop (S n) t = r). now apply IH.
Qed.

Lemma after_percent_length (cs : list N) :
  (List.length (after_percent cs) <= List.length cs)%nat.
Proof.
  destruct cs as [| b r]; simpl; [lia |].
  destruct (b =? 37)%N; simpl; lia.
Qed.

Lemma scan_drop (k : nat) (cs : list N) : scan k cs = scan 0 (drop k cs).
Proof.
  revert k. induction cs as [| a r IH]; intros [| k]; try reflexivity.
  simpl scan at 1. rewrite IH. reflexivity.
Qed.

Lemma scan_other (a : N) (r : list N) :
  is_digit a = false -> scan 0 (a :: r) = scan 0 r.
Proof.
  intros H. simpl. unfold match_here. simpl. now rewrite H.
Qed.

Lemma scan_digit (a : N) (r : list N) :
  is_digit a = true ->
  scan 0 (a :: r)
  = take_digits 3 (a :: r)
    :: scan 0 (after_percent
                 (drop (List.length (take_digits 3 (a :: r))) (a :: r))).
Proof.
  intros H.
  change (scan 0 (a :: r))
    with (match match_here (a :: r) with
          | Some (g, n) => g :: scan (Nat.pred n) r
          | None => scan 0 r
          end).
  unfold match_here.
  assert (Hcons : take_digits 3 (a :: r) = (a :: take_digits 2 r)%list)
    by (simpl; now rewrite H).
  rewrite Hcons. cbv zeta.
  change (List.length (a :: take_digits 2 r))
    with (S (List.length (take_digits 2 r))).
  change (drop (S (List.length (take_digits 2 r))) (a :: r))
    with (drop (List.length (take_digits 2 r)) r).
  generalize (List.length (take_digits 2 r)). intros k.
  destruct (drop k r) as [| b rest] eqn:Hrest.
  - simpl after_percent. rewrite Nat.pred_succ.
    now rewrite (scan_drop k r), Hrest.
  - simpl after_percent. destruct (b =? 37)%N.
    + rewrite Nat.pred_succ. rewrite (scan_drop (S k) r).
      now rewrite (drop_next _ _ _ _ Hrest).
    + rewrite Nat.pred_succ. now rewrite (scan_drop k r), Hrest.
Qed.

Lemma Matches_skip (a : N) (cs : list N) (gs : list (list N)) :
  is_digit a = false -> Matches cs gs -> Matches (a :: cs) gs.
Proof.
  intros Ha H. destruct H as [cs Hs | pre g rest gs Hpre Hg Hlen Hmax Hrest].
  - apply Matches_nil. simpl. now rewrite Ha, Hs.
  - change (a :: pre ++ g ++ rest)%list with ((a :: pre) ++ g ++ rest)%list.
    apply Matches_cons; auto. simpl. now rewrite Ha, Hpre.
Qed.

Lemma scan_Matches (n : nat) (cs : list N) :
  (List.length cs <= n)%nat -> Matches cs (scan 0 cs).
Proof.
  revert cs. induction n as [| n IH]; intros [| a r] Hlen; simpl in Hlen; try lia.
  - now apply Matches_nil.
  - now apply Matches_nil.
  - destruct (is_digit a) eqn:Ha.
    + rewrite (scan_digit a r Ha).
      rewrite (take_digits_split 3 (a :: r)) at 1.
      apply (Matches_cons []).
      * reflexivity.
      * apply take_digits_all.
      * split; [simpl; rewrite Ha; simpl; lia | apply take_digits_length].
      * apply take_digits_maximal.
      * apply IH.
        pose proof (after_percent_length
                      (drop (List.length (take_digits 3 (a :: r))) (a :: r))).
        pose proof (drop_length (List.length (take_digits 3 (a :: r))) (a :: r)).
        assert (1 <= List.length (take_digits 3 (a :: r)))%nat
          by (simpl; rewrite Ha; simpl; lia).
        simpl List.length in *. lia.
    + rewrite (scan_other a r Ha). apply Matches_skip; [assumption |].
      apply IH. lia.
Qed.

(** What [findall] returns is a list of matches of the pattern. *)
Lemma findall_Matches (s : string) : Matches (decode s) (findall s).
Proof. apply (scan_Matches (List.length (decode s))). lia. Qed.

Lemma scan_no_digit (cs : list N) : no_digit cs = true -> scan 0 cs = [].
Proof.
  induction cs as [| a r IH]; [reflexivity |]. simpl no_digit.
  intros H. apply andb_true_iff in H as [Ha Hr].
  apply negb_true_iff in Ha. rewrite (scan_other a r Ha). auto.
Qed.

Lemma scan_prefix (pre cs : list N) :
  no_digit pre = true -> scan 0 (pre ++ cs)%list = scan 0 cs.
Proof.
  induction pre as [| a r IH]; [reflexivity |]. simpl no_digit.
  intros H. apply andb_true_iff in H as [Ha Hr].
  apply negb_true_iff in Ha.
  change ((a :: r) ++ cs)%list with (a :: (r ++ cs))%list.
  rewrite (scan_other a _ Ha). auto.
Qed.

Lemma take_digits_exact (g rest : list N) (n : nat) :
  all_digits g = true ->
  (List.length g <= n)%nat ->
  List.length g = n \/ starts_with_digit rest = false ->
  take_digits n (g ++ rest)%list = g.
Proof.
  revert n. induction g as [| a g' IH]; intros n Hg Hlen Hmax.
  - simpl. destruct n as [| n]; [now destruct rest |].
    destruct Hmax as [Hmax | Hmax]; [discriminate |].
    destruct rest as [| b rest']; [reflexivity |].
    simpl in Hmax |- *. now rewrite Hmax.
  - simpl in Hg, Hlen. apply andb_true_iff in Hg as [Ha Hg].
    destruct n as [| n]; [lia |].
    simpl. rewrite Ha. f_equal. apply IH; [assumption | lia |].
    destruct Hmax as [Hmax | Hmax]; [left; simpl in Hmax; lia | now right].
Qed.

Lemma drop_app (g rest : list N) : drop (List.length g) (g ++ rest)%list = rest.
Proof. induction g as [| a g' IH]; [now destruct rest | exact IH]. Qed.

(** And it is the only one. *)
Lemma Matches_scan (cs : list N) (gs : list (list N)) :
  Matches cs gs -> gs = scan 0 cs.
Proof.
  induction 1 as [cs Hs | pre g rest gs Hpre Hg Hlen Hmax _ IH].
  - symmetry. now apply scan_no_digit.
  - rewrite (scan_prefix pre _ Hpre).
    destruct g as [| a g']; [simpl in Hlen; lia |].
    change ((a :: g') ++ rest)%list with (a :: (g' ++ rest))%list.
    assert (Ha : is_digit a = true)
      by (simpl in Hg; now apply andb_true_iff in Hg as [Ha _]).
    rewrite (scan_digit a _ Ha).
    change (a :: (g' ++ rest))%list with ((a :: g') ++ rest)%list.
    rewrite (take_digits_exact (a :: g') rest 3 Hg (proj2 Hlen) Hmax).
    rewrite drop_app. now rewrite IH.
Qed.

Lemma Matches_findall (s : string) (gs : list (list N)) :
  Matches (decode s) gs -> gs = findall s.
Proof. apply Matches_scan. Qed.

(** Every group found is a sequence of one to three digits. *)
Lemma Matches_groups (cs : list N) (gs : list (list N)) :
  Matches cs gs ->
  Forall (fun g => all_digits g = true /\ (1 <= List.length g <= 3)%nat) gs.
Proof.
  induction 1 as [| pre g rest gs _ Hg Hlen _ _ IH]; constructor; [| exact IH].
  split; assumption.
Qed.

(** ** [int] on the groups *)

Lemma digit_value_range (d : digit) : 0 <= digit_value d <= 9.
Proof. destruct d; simpl; lia. Qed.

Lemma digit_val_range (c : N) : 0 <= digit_val c <= 9.
Proof.
  unfold digit_val. destruct (decimal_of c); [apply digit_value_range | lia].
Qed.

Lemma nth_digit_below (n : N) (d : digit) : nth_digit n = Some d -> (n <= 9)%N.
Proof.
  destruct n as [| p]; [lia |]. simpl.
  destruct p as [[[[| |] | [| |] |] | [[| |] | [| |] |] |]
                | [[[| |] | [| |] |] | [[| |] | [| |] |] |] |];
    try discriminate; intros _; lia.
Qed.

(** A digit is neither white space, nor a sign, nor an underscore, nor a
    percent sign. *)
Lemma digit_is_plain (c : N) :
  is_digit c = true ->
  is_space c = false /\ (c =? 43)%N = false /\ (c =? 45)%N = false
  /\ (c =? 95)%N = false /\ (c =? 37)%N = false.
Proof.
  unfold is_digit, decimal_of. intros H.
  destruct (N.ltb_spec c 128) as [Hlt | Hge].
  - destruct (N.leb_spec 48 c) as [Hlo | Hlo]; [| discriminate].
    destruct (nth_digit (c - 48)) as [d |] eqn:E; [| discriminate].
    apply nth_digit_below in E.
    assert (Hc : (48 <= c <= 57)%N) by lia.
    unfold is_space.
    repeat match goal with
           | |- context [(?x =? ?y)%N] => destruct (N.eqb_spec x y); try lia
           | |- context [(?x <=? ?y)%N] => destruct (N.leb_spec x y); try lia
           end; simpl; auto.
  - destruct (is_space c); [discriminate |].
    repeat match goal with
           | |- context [(?x =? ?y)%N] => destruct (N.eqb_spec x y); try lia
           end; auto.
Qed.

Lemma drop_spaces_digit (c : N) (r : list N) :
  is_digit c = true -> drop_spaces (c :: r) = (c :: r)%list.
Proof.
  intros H. pose proof (digit_is_plain c H) as [Hs _].
  assert (Hi : is_int_space c = false).
  { unfold is_int_space. rewrite Hs, andb_false_r, orb_false_r.
    unfold is_digit, decimal_of in H.
    destruct (N.ltb_spec c 128) as [Hlt | Hge].
    - destruct (N.leb_spec 48 c) as [Hlo | Hlo]; [| discriminate].
      destruct (N.leb_spec 9 c), (N.leb_spec c 13), (N.eqb_spec c 32);
        simpl; try reflexivity; lia.
    - rewrite Hs in H.
      destruct (N.leb_spec 9 c), (N.leb_spec c 13), (N.eqb_spec c 32);
        simpl; try reflexivity; lia. }
  simpl. now rewrite Hi.
Qed.

Lemma all_digits_Forall (g : list N) :
  all_digits g = true -> Forall (fun c => is_digit c = true) g.
Proof.
  induction g as [| a r IH]; simpl; intros H; constructor.
  - now apply andb_true_iff in H as [Ha _].
  - apply IH. now apply andb_true_iff in H as [_ Hr].
Qed.

Lemma strip_spaces_digits (g : list N) :
  all_digits g = true -> strip_spaces g = g.
Proof.
  intros Hg. unfold strip_spaces.
  pose proof (all_digits_Forall g Hg) as Hall.
  destruct g as [| a r]; [reflexivity |].
  rewrite drop_spaces_digit by now inversion Hall.
  assert (Hrev : Forall (fun c => is_digit c = true) (rev (a :: r)))
    by now apply Forall_rev.
  destruct (rev (a :: r)) as [| b t] eqn:Erev.
  - apply (f_equal (@List.length N)) in Erev.
    rewrite length_rev in Erev. discriminate.
  - rewrite drop_spaces_digit by now inversion Hrev.
    now rewrite <- Erev, rev_involutive.
Qed.

Lemma int_digits_decimal (g : list N) (acc : Z) (b : bool) :
  all_digits g = true ->
  g <> [] \/ b = true ->
  int_digits acc b g = Some (decimal_from acc g).
Proof.
  revert acc b. induction g as [| a r IH]; intros acc b Hg Hne; simpl.
  - destruct Hne as [Hne | ->]; [congruence | reflexivity].
  - simpl in Hg. apply andb_true_iff in Hg as [Ha Hr]. rewrite Ha.
    apply IH; auto.
Qed.

Lemma count_digits_all (g : list N) :
  all_digits g = true -> count_digits g = List.length g.
Proof.
  induction g as [| a r IH]; [reflexivity |]. simpl.
  intros H. apply andb_true_iff in H as [Ha Hr]. rewrite Ha. f_equal. auto.
Qed.

(** [int] reads a sequence of digits as its decimal value, unless it is
    longer than the interpreter allows. *)
Lemma int_of_chars_digits (g : list N) :
  all_digits g = true -> g <> [] ->
  over_int_limit (List.length g) = false ->
  int_of_chars g = inr (decimal g).
Proof.
  intros Hg Hne Hlimit. unfold int_of_chars.
  rewrite (strip_spaces_digits g Hg). cbv zeta.
  destruct g as [| a r]; [congruence |].
  assert (Ha : is_digit a = true)
    by (simpl in Hg; now apply andb_true_iff in Hg as [Ha _]).
  destruct (digit_is_plain a Ha) as (_ & Hplus & Hminus & _).
  rewrite Hplus, Hminus. simpl orb. cbv iota.
  rewrite (int_digits_decimal _ 0 false Hg) by (left; discriminate).
  rewrite (count_digits_all _ Hg), Hlimit. reflexivity.
Qed.

Lemma short_within_limit (n : nat) : (n <= 640)%nat -> over_int_limit n = false.
Proof.
  intros H. unfold over_int_limit.
  destruct (Nat.ltb_spec 640 n); [lia | reflexivity].
Qed.

Lemma nth_int_groups (i : nat) (gs : list (list N)) :
  Forall (fun g => all_digits g = true /\ (1 <= List.length g <= 3)%nat) gs ->
  nth_int i gs = inr (nth i (map decimal gs) 50).
Proof.
  intros H. unfold nth_int. revert i.
  induction H as [| g gs [Hg Hlen] _ IH]; intros [| i]; simpl; try reflexivity.
  - apply int_of_chars_digits; [assumption | |].
    + destruct g; [simpl in Hlen; lia | discriminate].
    + apply short_within_limit. lia.
  - apply IH.
Qed.

Lemma decimal_three (g : list N) :
  (List.length g <= 3)%nat -> 0 <= decimal g <= 999.
Proof.
  unfold decimal.
  destruct g as [| a [| b [| c [| d r]]]];
    cbn [decimal_from List.length]; intros Hlen; try lia;
    pose proof (digit_val_range a);
    try pose proof (digit_val_range b);
    try pose proof (digit_val_range c);
    lia.
Qed.

Lemma nth_decimal_range (i : nat) (gs : list (list N)) :
  Forall (fun g => all_digits g = true /\ (1 <= List.length g <= 3)%nat) gs ->
  0 <= nth i (map decimal gs) 50 <= 999.
Proof.
  intros H. revert i.
  induction H as [| g gs [Hg Hlen] _ IH]; intros [| i]; simpl; try lia.
  - apply decimal_three. lia.
  - apply IH.
Qed.

End Pattern.

(** ** The species endpoint, text fallback *)

(** C5 (counterexample): the reply has no function call and its content
    is null, not a text.  [re.findall] raises TypeError on it and the answer
    is the 502 error, not a 200 answer built from defaults. *)
Lemma C5_null_content_is_answered_502 :
  especie (RT := mock_runtime)
    (always (inr (JObj [("choices",
                         JArr [JObj [("message",
                                      JObj [("role", JStr "assistant");
                                            ("content", JNull)])]])])))
    monstera_request
  = ([especie_call "Monstera deliciosa"],
     Response (JObj [("error", JStr "openai request failed");
                     ("detail", JStr "TypeError")]) 502).
Proof. vm_compute. reflexivity. Qed.

(** C5 (amended): when the reply carries no structured payload and its
    content is a text (an absent content counting as the empty text), the
    groups read from the text are exactly the leftmost matches of one to
    three digits with an optional percent sign, in order of appearance; the
    first is sent back as humedad_tierra and the second as humedad_ambiente,
    50 standing for a group that is missing; tipo is "interior", and the 200
    response carries the fallback note and the text itself. *)
Theorem C5_text_fallback_extraction
  {RT : Runtime} (create : chat_call -> py json) (req : request) (name : string)
  (resp : json) (text : string) :
  especie_field req = inr name ->
  str_empty name = false ->
  create (especie_call name) = inr resp ->
  text_payload resp (JStr text) ->
  (forall gs, Matches (decode text) gs <-> gs = findall text)
  /\ especie create req
     = ([especie_call name],
        Response
          (JObj [("humedad_tierra", JInt (nth 0 (map decimal (findall text)) 50));
                 ("humedad_ambiente", JInt (nth 1 (map decimal (findall text)) 50));
                 ("tipo", JStr "interior");
                 ("note", JStr "extracted from text fallback");
                 ("raw_text", JStr text)]) 200).
Proof.
  intros Hfield Hname Hcall Hpayload. split.
  - intros gs. split; [apply Matches_findall | intros ->; apply findall_Matches].
  - rewrite (especie_resolved create req name Hfield)
      by (intros ->; discriminate).
    rewrite Hcall. simpl bind.
    rewrite (especie_reply_text resp (JStr text) Hpayload). simpl bind.
    pose proof (Matches_groups _ _ (findall_Matches text)) as Hgroups.
    rewrite !(nth_int_groups _ _ Hgroups). reflexivity.
Qed.

Lemma C5_soil_and_ambient_witness :
  especie (RT := mock_runtime)
    (always (inr (text_reply "Needs about 40% soil and 60% ambient")))
    monstera_request
  = ([especie_call "Monstera deliciosa"],
     Response
       (JObj [("humedad_tierra", JInt 40); ("humedad_ambiente", JInt 60);
              ("tipo", JStr "interior");
              ("note", JStr "extracted from text fallback");
              ("raw_text", JStr "Needs about 40% soil and 60% ambient")]) 200)
  /\ especie (RT := mock_runtime)
       (always (inr (text_reply "٤٠% y ٦٠%"))) monstera_request
     = ([especie_call "Monstera deliciosa"],
        Response
          (JObj [("humedad_tierra", JInt 40); ("humedad_ambiente", JInt 60);
                 ("tipo", JStr "interior");
                 ("note", JStr "extracted from text fallback");
                 ("raw_text", JStr "٤٠% y ٦٠%")]) 200).
Proof.
  split.
  - apply (C5_text_fallback_extraction (RT := mock_runtime)
             (always (inr (text_reply "Needs about 40% soil and 60% ambient")))
             monstera_request "Monstera deliciosa"
             (text_reply "Needs about 40% soil and 60% ambient")
             "Needs about 40% soil and 60% ambient").
    + reflexivity.
    + reflexivity.
    + reflexivity.
    + eexists. split; [reflexivity |]. split; reflexivity.
  - apply (C5_text_fallback_extraction (RT := mock_runtime)
             (always (inr (text_reply "٤٠% y ٦٠%")))
             monstera_request "Monstera deliciosa"
             (text_reply "٤٠% y ٦٠%") "٤٠% y ٦٠%").
    + reflexivity.
    + reflexivity.
    + reflexivity.
    + eexists. split; [reflexivity |]. split; reflexivity.
Defined.

(** * Further properties of the handlers *)

(** ** The clamp *)

(** X1: the clamp leaves a humidity as it is exactly when it lies within
    0..100, and clamping twice is clamping once. *)
Theorem X1_clamp_fixed_points (h : Z) :
  (clamp_humidity h = h <-> 0 <= h <= 100)
  /\ clamp_humidity (clamp_humidity h) = clamp_humidity h.
Proof.
  split.
  - split; [| apply clamp_humidity_valid].
    intros <-. apply clamp_humidity_range.
  - apply clamp_humidity_valid, clamp_humidity_range.
Qed.

(** ** Bounds of the text fallback *)

(** Whatever the text, each of the two numbers read from it lies in
    0..999. *)
Lemma especie_fallback_bounds {RT : Runtime} (choice : json) (out : outcome) :
  especie_fallback choice = inr out ->
  exists ht ha text,
    message_content choice = inr (JStr text)
    /\ out = Response (fallback_body ht ha (JStr text)) 200
    /\ 0 <= ht <= 999 /\ 0 <= ha <= 999.
Proof.
  unfold especie_fallback, bind. intros H.
  destruct (message_content choice) as [? | content]; [discriminate |].
  destruct content as [| | | | text | |]; try discriminate.
  simpl in H.
  pose proof (Matches_groups _ _ (findall_Matches text)) as HG.
  rewrite !(nth_int_groups _ _ HG) in H.
  injection H as <-.
  exists (nth 0 (map decimal (findall text)) 50),
         (nth 1 (map decimal (findall text)) 50), text.
  repeat split; try apply (nth_decimal_range _ _ HG).
Qed.

(** ** Every answer a handler can give *)

Lemma especie_reply_shapes {RT : Runtime} (resp : json) (out : outcome) :
  especie_reply resp = inr out ->
  (exists e raw, out = parse_failed e raw)
  \/ (exists ht ha tipo,
        out = Response (species_body ht ha (JStr tipo)) 200
        /\ 0 <= ht <= 100 /\ 0 <= ha <= 100
        /\ (tipo = "interior" \/ tipo = "exterior"))
  \/ (exists ht ha text,
        out = Response (fallback_body ht ha (JStr text)) 200
        /\ 0 <= ht <= 999 /\ 0 <= ha <= 999).
Proof.
  unfold especie_reply, bind. intros H.
  destruct (first_choice resp) as [? | choice]; [discriminate |].
  destruct (has_function_call choice) as [? | [|]]; [discriminate | |].
  - destruct (function_arguments choice) as [? | func_args]; [discriminate |].
    destruct (especie_structured func_args) as [e | out'] eqn:E.
    + injection H as <-. left. eauto.
    + injection H as <-. right. left.
      destruct (structured_answer_in_range func_args out' E)
        as (ht & ha & tipo & -> & Hht & Hha & [-> | ->]);
        exists ht, ha; [exists "interior" | exists "exterior"]; auto.
  - right. right.
    destruct (especie_fallback_bounds choice out H) as (ht & ha & text & _ & -> & B).
    exists ht, ha, text. auto.
Qed.

(** X2: what POST /especie can do is one of six things.  Reading the
    field raises and the exception leaves the handler, no call made; the
    field is blank and the answer is the 400 error, no call made; or the
    model is called once with the trimmed name and the answer is the 502
    error, the 500 error, a structured 200 answer with both humidities in
    0..100 and a literal tipo, or a fallback 200 answer with both
    humidities in 0..999, tipo interior, the note and the text. *)
Theorem X2_especie_answer_shapes
  {RT : Runtime} (create : chat_call -> py json) (req : request) :
  (exists e, especie_field req = inl e /\ especie create req = ([], Unhandled e))
  \/ (especie_field req = inr ""
      /\ especie create req
         = ([], Response (JObj [("error", JStr "missing 'especie' in JSON body")]) 400))
  \/ (exists name out,
        especie_field req = inr name /\ str_empty name = false
        /\ especie create req = ([especie_call name], out)
        /\ ((exists e,
               out = Response (JObj [("error", JStr "openai request failed");
                                     ("detail", JStr (str_exn e))]) 502)
            \/ (exists e raw,
                  out = Response (JObj [("error", JStr "failed parsing model arguments");
                                        ("detail", JStr (str_exn e)); ("raw", raw)]) 500)
            \/ (exists ht ha tipo,
                  out = Response (JObj [("humedad_tierra", JInt ht);
                                        ("humedad_ambiente", JInt ha);
                                        ("tipo", JStr tipo)]) 200
                  /\ 0 <= ht <= 100 /\ 0 <= ha <= 100
                  /\ (tipo = "interior" \/ tipo = "exterior"))
            \/ (exists ht ha text,
                  out = Response (JObj [("humedad_tierra", JInt ht);
                                        ("humedad_ambiente", JInt ha);
                                        ("tipo", JStr "interior");
                                        ("note", JStr "extracted from text fallback");
                                        ("raw_text", JStr text)]) 200
                  /\ 0 <= ht <= 999 /\ 0 <= ha <= 999))).
Proof.
  unfold especie. destruct (especie_field req) as [e | name].
  - left. eauto.
  - destruct (str_empty name) eqn:E.
    + right. left. apply str_empty_true in E. subst. auto.
    + right. right. eexists name, _.
      split; [reflexivity |]. split; [exact E |]. split; [reflexivity |].
      destruct (create (especie_call name)) as [e | resp]; simpl.
      * left. exists e. reflexivity.
      * destruct (especie_reply resp) as [e | out] eqn:R.
        -- left. exists e. reflexivity.
        -- right. exact (especie_reply_shapes resp out R).
Qed.

Lemma esplanta_reply_shapes {RT : Runtime} (resp : json) (out : outcome) :
  esplanta_reply resp = inr out ->
  out = Response (es_planta true) 200
  \/ out = Response (es_planta false) 200
  \/ (exists text,
        out = Response (es_planta_raw text) 200
        /\ str_contains "sí" text = false /\ str_contains "si" text = false
        /\ str_contains "yes" text = false /\ str_contains "no" text = false).
Proof.
  unfold esplanta_reply, bind. intros H.
  destruct (first_choice resp) as [? | choice]; [discriminate |].
  destruct (message_content choice) as [? | content]; [discriminate |].
  destruct (py_strip_method content) as [? | stripped]; [discriminate |].
  destruct (str_contains "sí" _) eqn:E1; [injection H as <-; auto |].
  destruct (str_contains "si" _) eqn:E2; [injection H as <-; auto |].
  destruct (str_contains "yes" _) eqn:E3; [injection H as <-; auto |].
  destruct (str_contains "no" _) eqn:E4; injection H as <-; [auto |].
  right. right. eexists. repeat split; assumption.
Qed.

(** X3: what POST|GET /esplanta can do is one of five things.  Reading
    the field raises and the exception leaves the handler, no call made;
    the field is blank and the answer is the 400 error, no call made; or the
    model is called once with the trimmed question and the answer is the
    502 error, a plain es_planta true or false, or es_planta false with a
    raw text that holds none of the four keywords. *)
Theorem X3_esplanta_answer_shapes
  {RT : Runtime} (create : chat_call -> py json) (req : request) :
  (exists e, esplanta_field req = inl e /\ esplanta create req = ([], Unhandled e))
  \/ (esplanta_field req = inr ""
      /\ esplanta create req
         = ([], Response (JObj [("error", JStr "missing 'pregunta' in JSON body")]) 400))
  \/ (exists pregunta out,
        esplanta_field req = inr pregunta /\ str_empty pregunta = false
        /\ esplanta create req = ([esplanta_call pregunta], out)
        /\ ((exists e,
               out = Response (JObj [("error", JStr "openai request failed");
                                     ("detail", JStr (str_exn e))]) 502)
            \/ (exists b, out = Response (JObj [("es_planta", JBool b)]) 200)
            \/ (exists text,
                  out = Response (JObj [("es_planta", JBool false);
                                        ("raw", JStr text)]) 200
                  /\ str_contains "sí" text = false
                  /\ str_contains "si" text = false
                  /\ str_contains "yes" text = false
                  /\ str_contains "no" text = false))).
Proof.
  unfold esplanta. destruct (esplanta_field req) as [e | pregunta].
  - left. eauto.
  - destruct (str_empty pregunta) eqn:E.
    + right. left. apply str_empty_true in E. subst. auto.
    + right. right. eexists pregunta, _.
      split; [reflexivity |]. split; [exact E |]. split; [reflexivity |].
      destruct (create (esplanta_call pregunta)) as [e | resp]; simpl.
      * left. exists e. reflexivity.
      * destruct (esplanta_reply resp) as [e | out] eqn:R.
        -- left. exists e. reflexivity.
        -- right.
           destruct (esplanta_reply_shapes resp out R) as [-> | [-> | H]].
           ++ left. now exists true.
           ++ left. now exists false.
           ++ right. exact H.
Qed.

(** ** More on the text fallback *)

Section Answers.

Context {RT : Runtime}.
Variable create : chat_call -> py json.

(** The answer of the fallback, whatever the text. *)
Lemma especie_text_answer (req : request) (name : string) (resp : json) (text : string) :
  especie_field req = inr name ->
  str_empty name = false ->
  create (especie_call name) = inr resp ->
  text_payload resp (JStr text) ->
  especie create req
  = ([especie_call name],
     Response (fallback_body (nth 0 (map decimal (findall text)) 50)
                             (nth 1 (map decimal (findall text)) 50)
                             (JStr text)) 200).
Proof.
  intros Hfield Hname Hcall Hpayload.
  rewrite (especie_resolved create req name Hfield) by (intros ->; discriminate).
  rewrite Hcall. simpl bind.
  rewrite (especie_reply_text resp (JStr text) Hpayload). simpl bind.
  pose proof (Matches_groups _ _ (findall_Matches text)) as Hgroups.
  rewrite !(nth_int_groups _ _ Hgroups). reflexivity.
Qed.

(** The answer of the structured path, whatever the arguments. *)
Lemma especie_structured_answer (req : request) (name : string) (resp func_args : json) :
  especie_field req = inr name ->
  str_empty name = false ->
  create (especie_call name) = inr resp ->
  structured_payload resp func_args ->
  especie create req
  = ([especie_call name],
     match especie_structured func_args with
     | inr out => out
     | inl e => parse_failed e func_args
     end).
Proof.
  intros Hfield Hname Hcall Hpayload.
  rewrite (especie_resolved create req name Hfield) by (intros ->; discriminate).
  rewrite Hcall. simpl bind.
  now rewrite (especie_reply_structured resp func_args Hpayload).
Qed.

End Answers.

Lemma no_digit_start {RT : Runtime} (cs : list N) :
  no_digit cs = true -> starts_with_digit cs = false.
Proof.
  destruct cs as [| a r]; [reflexivity |]. simpl. intros H.
  apply andb_true_iff in H as [H _]. now apply negb_true_iff in H.
Qed.

Lemma no_digit_after_percent {RT : Runtime} (cs : list N) :
  no_digit cs = true -> no_digit (after_percent cs) = true.
Proof.
  destruct cs as [| a r]; [reflexivity |]. simpl. intros H.
  destruct (a =? 37)%N; [| exact H].
  now apply andb_true_iff in H as [_ H].
Qed.

(** X4: a text without any decimal digit, the empty text included, is
    answered with 50 and 50. *)
Theorem X4_fallback_without_digits
  {RT : Runtime} (create : chat_call -> py json) (req : request) (name : string)
  (resp : json) (text : string) :
  especie_field req = inr name ->
  str_empty name = false ->
  create (especie_call name) = inr resp ->
  text_payload resp (JStr text) ->
  no_digit (decode text) = true ->
  especie create req
  = ([especie_call name],
     Response
       (JObj [("humedad_tierra", JInt 50); ("humedad_ambiente", JInt 50);
              ("tipo", JStr "interior");
              ("note", JStr "extracted from text fallback");
              ("raw_text", JStr text)]) 200).
Proof.
  intros Hfield Hname Hcall Hpayload Hnone.
  rewrite (especie_text_answer create req name resp text Hfield Hname Hcall Hpayload).
  unfold findall. now rewrite (scan_no_digit _ Hnone).
Qed.

Lemma X4_unsure_reply_witness :
  especie (RT := mock_runtime)
    (always (inr (text_reply "I am not sure about this species.")))
    monstera_request
  = ([especie_call "Monstera deliciosa"],
     Response
       (JObj [("humedad_tierra", JInt 50); ("humedad_ambiente", JInt 50);
              ("tipo", JStr "interior");
              ("note", JStr "extracted from text fallback");
              ("raw_text", JStr "I am not sure about this species.")]) 200).
Proof.
  apply (X4_fallback_without_digits (RT := mock_runtime) _ monstera_request
           "Monstera deliciosa"
           (text_reply "I am not sure about this species.")).
  - reflexivity.
  - reflexivity.
  - reflexivity.
  - eexists. split; [reflexivity |]. split; reflexivity.
  - reflexivity.
Defined.

(** X5: a text with a single number of one to three decimal digits gives
    that number as humedad_tierra and 50 as humedad_ambiente. *)
Theorem X5_fallback_single_number
  {RT : Runtime} (create : chat_call -> py json) (req : request) (name : string)
  (resp : json) (text : string) (pre g rest : list N) :
  especie_field req = inr name ->
  str_empty name = false ->
  create (especie_call name) = inr resp ->
  text_payload resp (JStr text) ->
  decode text = (pre ++ g ++ rest)%list ->
  no_digit pre = true ->
  all_digits g = true ->
  (1 <= List.length g <= 3)%nat ->
  no_digit rest = true ->
  especie create req
  = ([especie_call name],
     Response
       (JObj [("humedad_tierra", JInt (decimal g)); ("humedad_ambiente", JInt 50);
              ("tipo", JStr "interior");
              ("note", JStr "extracted from text fallback");
              ("raw_text", JStr text)]) 200).
Proof.
  intros Hfield Hname Hcall Hpayload Htext Hpre Hg Hlen Hrest.
  rewrite (especie_text_answer create req name resp _ Hfield Hname Hcall Hpayload).
  assert (HM : Matches (decode text) [g]).
  { rewrite Htext. apply Matches_cons; auto.
    - right. now apply no_digit_start.
    - apply Matches_nil. now apply no_digit_after_percent. }
  rewrite <- (Matches_findall _ _ HM). reflexivity.
Qed.

Lemma X5_one_number_witness :
  especie (RT := mock_runtime)
    (always (inr (text_reply "Keep the soil at 45% humidity")))
    monstera_request
  = ([especie_call "Monstera deliciosa"],
     Response
       (JObj [("humedad_tierra", JInt 45); ("humedad_ambiente", JInt 50);
              ("tipo", JStr "interior");
              ("note", JStr "extracted from text fallback");
              ("raw_text", JStr "Keep the soil at 45% humidity")]) 200).
Proof.
  apply (X5_fallback_single_number (RT := mock_runtime) _ monstera_request
           "Monstera deliciosa"
           (text_reply "Keep the soil at 45% humidity")
           "Keep the soil at 45% humidity"
           (decode "Keep the soil at ") (decode "45") (decode "% humidity")).
  - reflexivity.
  - reflexivity.
  - reflexivity.
  - eexists. split; [reflexivity |]. split; reflexivity.
  - reflexivity.
  - reflexivity.
  - reflexivity.
  - simpl. lia.
  - reflexivity.
Defined.

(** X6: a run of four decimal digits or more is cut after the third: the
    first three digits are humedad_tierra and the digits that follow, up to
    three, are humedad_ambiente. *)
Theorem X6_fallback_splits_long_numbers
  {RT : Runtime} (create : chat_call -> py json) (req : request) (name : string)
  (resp : json) (text : string) (pre g rest : list N) :
  especie_field req = inr name ->
  str_empty name = false ->
  create (especie_call name) = inr resp ->
  text_payload resp (JStr text) ->
  decode text = (pre ++ g ++ rest)%list ->
  no_digit pre = true ->
  all_digits g = true ->
  List.length g = 3%nat ->
  starts_with_digit rest = true ->
  especie create req
  = ([especie_call name],
     Response
       (JObj [("humedad_tierra", JInt (decimal g));
              ("humedad_ambiente", JInt (decimal (take_digits 3 rest)));
              ("tipo", JStr "interior");
              ("note", JStr "extracted from text fallback");
              ("raw_text", JStr text)]) 200).
Proof.
  intros Hfield Hname Hcall Hpayload Htext Hpre Hg Hlen Hrest.
  rewrite (especie_text_answer create req name resp _ Hfield Hname Hcall Hpayload).
  assert (E : exists tail, findall text = g :: take_digits 3 rest :: tail).
  { unfold findall. rewrite Htext, (scan_prefix pre _ Hpre).
    destruct g as [| a g']; [discriminate |].
    assert (Ha : is_digit a = true)
      by (simpl in Hg; now apply andb_true_iff in Hg as [Ha _]).
    change ((a :: g') ++ rest)%list with (a :: (g' ++ rest))%list.
    rewrite (scan_digit a _ Ha).
    change (a :: (g' ++ rest))%list with ((a :: g') ++ rest)%list.
    rewrite (take_digits_exact (a :: g') rest 3 Hg) by (auto; lia).
    rewrite drop_app.
    destruct rest as [| b r]; [discriminate |]. simpl in Hrest.
    simpl after_percent.
    destruct (digit_is_plain b Hrest) as (_ & _ & _ & _ & Hpercent).
    rewrite Hpercent, (scan_digit b r Hrest). eauto. }
  destruct E as [tail ->]. reflexivity.
Qed.

Lemma X6_year_witness :
  especie (RT := mock_runtime)
    (always (inr (text_reply "Updated 2024: about 55%")))
    monstera_request
  = ([especie_call "Monstera deliciosa"],
     Response
       (JObj [("humedad_tierra", JInt 202); ("humedad_ambiente", JInt 4);
              ("tipo", JStr "interior");
              ("note", JStr "extracted from text fallback");
              ("raw_text", JStr "Updated 2024: about 55%")]) 200).
Proof.
  apply (X6_fallback_splits_long_numbers (RT := mock_runtime) _ monstera_request
           "Monstera deliciosa"
           (text_reply "Updated 2024: about 55%")
           "Updated 2024: about 55%"
           (decode "Updated ") (decode "202") (decode "4: about 55%")).
  - reflexivity.
  - reflexivity.
  - reflexivity.
  - eexists. split; [reflexivity |]. split; reflexivity.
  - reflexivity.
  - reflexivity.
  - reflexivity.
  - reflexivity.
  - reflexivity.
Defined.

(** ** More on the structured path *)

(** X7: humidity fields given as strings of decimal digits, no longer
    than the interpreter lets [int] read, are read as the numbers they spell
    and clamped like integers. *)
Theorem X7_numeric_strings_are_read
  {RT : Runtime} (create : chat_call -> py json) (req : request) (name : string)
  (resp : json) (s : string) (fields : list (string * json)) (g1 g2 : string) :
  especie_field req = inr name ->
  str_empty name = false ->
  create (especie_call name) = inr resp ->
  structured_payload resp (JStr s) ->
  json_loads s = inr (JObj fields) ->
  lookup "humedad_tierra" fields = Some (JStr g1) ->
  all_digits (decode g1) = true -> decode g1 <> [] ->
  over_int_limit (List.length (decode g1)) = false ->
  lookup "humedad_ambiente" fields = Some (JStr g2) ->
  all_digits (decode g2) = true -> decode g2 <> [] ->
  over_int_limit (List.length (decode g2)) = false ->
  especie create req
  = ([especie_call name],
     Response
       (JObj [("humedad_tierra", JInt (clamp_humidity (decimal (decode g1))));
              ("humedad_ambiente", JInt (clamp_humidity (decimal (decode g2))));
              ("tipo", normal_tipo (match lookup "tipo" fields with
                                    | Some t => t
                                    | None => JStr ""
                                    end))]) 200).
Proof.
  intros Hfield Hname Hcall Hpayload Hloads H1 D1 N1 L1 H2 D2 N2 L2.
  rewrite (especie_structured_answer create req name resp _ Hfield Hname Hcall Hpayload).
  unfold especie_structured. simpl py_json_loads. rewrite Hloads.
  simpl. rewrite H1, H2. simpl. unfold int_of_str.
  rewrite (int_of_chars_digits _ D1 N1 L1). simpl.
  rewrite (int_of_chars_digits _ D2 N2 L2). simpl.
  reflexivity.
Qed.

Lemma X7_quoted_numbers_witness :
  especie (RT := table_runtime [(string_numbers_text, JObj string_numbers)])
    (always (inr (function_reply (JStr string_numbers_text))))
    monstera_request
  = ([especie_call "Monstera deliciosa"],
     Response
       (JObj [("humedad_tierra", JInt 30); ("humedad_ambiente", JInt 100);
              ("tipo", JStr "exterior")]) 200).
Proof.
  apply (X7_numeric_strings_are_read
           (RT := table_runtime [(string_numbers_text, JObj string_numbers)])
           _ monstera_request "Monstera deliciosa"
           (function_reply (JStr string_numbers_text))
           string_numbers_text string_numbers "30" "250").
  - reflexivity.
  - reflexivity.
  - reflexivity.
  - eexists. split; [reflexivity |]. split; reflexivity.
  - reflexivity.
  - reflexivity.
  - reflexivity.
  - discriminate.
  - reflexivity.
  - reflexivity.
  - reflexivity.
  - discriminate.
  - reflexivity.
Defined.

(** X8: arguments that are JSON but not an object (a list, a number, a
    string, null) are answered with the 500 error, the AttributeError of
    [args.get] as detail and the arguments string as raw. *)
Theorem X8_non_object_arguments_rejected
  {RT : Runtime} (create : chat_call -> py json) (req : request) (name : string)
  (resp : json) (s : string) (args : json) :
  especie_field req = inr name ->
  str_empty name = false ->
  create (especie_call name) = inr resp ->
  structured_payload resp (JStr s) ->
  json_loads s = inr args ->
  is_dict args = false ->
  especie create req
  = ([especie_call name],
     Response
       (JObj [("error", JStr "failed parsing model arguments");
              ("detail", JStr (str_exn AttributeError)); ("raw", JStr s)]) 500).
Proof.
  intros Hfield Hname Hcall Hpayload Hloads Hdict.
  rewrite (especie_structured_answer create req name resp _ Hfield Hname Hcall Hpayload).
  unfold especie_structured. simpl py_json_loads. rewrite Hloads.
  destruct args; try discriminate; reflexivity.
Qed.

Lemma X8_list_arguments_witness :
  especie (RT := table_runtime [("[30, 70]", JArr [JInt 30; JInt 70])])
    (always (inr (function_reply (JStr "[30, 70]")))) monstera_request
  = ([especie_call "Monstera deliciosa"],
     Response
       (JObj [("error", JStr "failed parsing model arguments");
              ("detail", JStr "AttributeError"); ("raw", JStr "[30, 70]")]) 500).
Proof.
  apply (X8_non_object_arguments_rejected
           (RT := table_runtime [("[30, 70]", JArr [JInt 30; JInt 70])])
           _ monstera_request "Monstera deliciosa"
           (function_reply (JStr "[30, 70]")) "[30, 70]" (JArr [JInt 30; JInt 70])).
  - reflexivity.
  - reflexivity.
  - reflexivity.
  - eexists. split; [reflexivity |]. split; reflexivity.
  - reflexivity.
  - reflexivity.
Defined.

(** X9: a humidity field that holds null, a list or an object is not
    replaced by a default: the answer is the 500 error with the TypeError of
    [int] as detail.  The same holds for humedad_ambiente when
    humedad_tierra is absent or an integer. *)
Theorem X9_null_humidity_rejected
  {RT : Runtime} (create : chat_call -> py json) (req : request) (name : string)
  (resp : json) (s : string) (fields : list (string * json)) (v : json) :
  especie_field req = inr name ->
  str_empty name = false ->
  create (especie_call name) = inr resp ->
  structured_payload resp (JStr s) ->
  json_loads s = inr (JObj fields) ->
  not_a_number v = true ->
  lookup "humedad_tierra" fields = Some v
  \/ (absent_or_int (lookup "humedad_tierra" fields)
      /\ lookup "humedad_ambiente" fields = Some v) ->
  especie create req
  = ([especie_call name],
     Response
       (JObj [("error", JStr "failed parsing model arguments");
              ("detail", JStr (str_exn TypeError)); ("raw", JStr s)]) 500).
Proof.
  intros Hfield Hname Hcall Hpayload Hloads Hv Hwhere.
  rewrite (especie_structured_answer create req name resp _ Hfield Hname Hcall Hpayload).
  unfold especie_structured. simpl py_json_loads. rewrite Hloads.
  destruct Hwhere as [H1 | [H1 H2]].
  - simpl. rewrite H1. destruct v; try discriminate; reflexivity.
  - destruct H1 as [H1 | [z H1]]; simpl; rewrite H1; simpl; rewrite H2;
      destruct v; try discriminate; reflexivity.
Qed.

Lemma X9_null_field_witness :
  especie (RT := table_runtime [(null_field_text, JObj null_field)])
    (always (inr (function_reply (JStr null_field_text))))
    monstera_request
  = ([especie_call "Monstera deliciosa"],
     Response
       (JObj [("error", JStr "failed parsing model arguments");
              ("detail", JStr "TypeError");
              ("raw", JStr null_field_text)]) 500).
Proof.
  apply (X9_null_humidity_rejected
           (RT := table_runtime [(null_field_text, JObj null_field)])
           _ monstera_request "Monstera deliciosa"
           (function_reply (JStr null_field_text))
           null_field_text null_field JNull).
  - reflexivity.
  - reflexivity.
  - reflexivity.
  - eexists. split; [reflexivity |]. split; reflexivity.
  - reflexivity.
  - reflexivity.
  - left. reflexivity.
Defined.

(** ** Replies that are not what the handlers expect *)

(** X10: a reply that is an object without choices, or with an empty list
    of choices, is answered by both endpoints with the 502 error, the
    KeyError or IndexError as detail. *)
Theorem X10_reply_without_choices
  {RT : Runtime} (create : chat_call -> py json) (req1 req2 : request)
  (name pregunta : string) (fields : list (string * json)) :
  especie_field req1 = inr name -> str_empty name = false ->
  esplanta_field req2 = inr pregunta -> str_empty pregunta = false ->
  create (especie_call name) = inr (JObj fields) ->
  create (esplanta_call pregunta) = inr (JObj fields) ->
  lookup "choices" fields = None \/ lookup "choices" fields = Some (JArr []) ->
  exists e,
    (e = KeyError "choices" \/ e = IndexError)
    /\ especie create req1
       = ([especie_call name],
          Response (JObj [("error", JStr "openai request failed");
                          ("detail", JStr (str_exn e))]) 502)
    /\ esplanta create req2
       = ([esplanta_call pregunta],
          Response (JObj [("error", JStr "openai request failed");
                          ("detail", JStr (str_exn e))]) 502).
Proof.
  intros F1 N1 F2 N2 C1 C2 Hchoices.
  rewrite (especie_resolved create req1 name F1) by (intros ->; discriminate).
  rewrite (esplanta_resolved create req2 pregunta F2) by (intros ->; discriminate).
  rewrite C1, C2. simpl bind.
  unfold especie_reply, esplanta_reply, first_choice. simpl.
  destruct Hchoices as [H | H]; rewrite H; simpl.
  - exists (KeyError "choices"). auto.
  - exists IndexError. auto.
Qed.

Lemma X10_empty_choices_witness :
  exists e,
    (e = KeyError "choices" \/ e = IndexError)
    /\ especie (RT := mock_runtime)
         (always (inr (JObj [("choices", JArr [])]))) monstera_request
       = ([especie_call "Monstera deliciosa"],
          Response (JObj [("error", JStr "openai request failed");
                          ("detail", JStr (mock_str e))]) 502)
    /\ esplanta (RT := mock_runtime)
         (always (inr (JObj [("choices", JArr [])]))) fern_request
       = ([esplanta_call "Is a fern a plant?"],
          Response (JObj [("error", JStr "openai request failed");
                          ("detail", JStr (mock_str e))]) 502).
Proof.
  apply (X10_reply_without_choices (RT := mock_runtime)
           (always (inr (JObj [("choices", JArr [])])))
           monstera_request fern_request
           "Monstera deliciosa" "Is a fern a plant?" [("choices", JArr [])]).
  - reflexivity.
  - reflexivity.
  - reflexivity.
  - reflexivity.
  - reflexivity.
  - reflexivity.
  - right. reflexivity.
Defined.

(** X11: when the reply has no function call and its content is not a
    string (null, say), the species endpoint answers the 502 error with the
    TypeError of [re.findall] as detail, and the question endpoint the 502
    error with the AttributeError of [strip]. *)
Theorem X11_content_that_is_not_text
  {RT : Runtime} (create : chat_call -> py json) (req1 req2 : request)
  (name pregunta : string) (resp content : json) :
  especie_field req1 = inr name -> str_empty name = false ->
  esplanta_field req2 = inr pregunta -> str_empty pregunta = false ->
  create (especie_call name) = inr resp ->
  create (esplanta_call pregunta) = inr resp ->
  text_payload resp content ->
  is_json_str content = false ->
  especie create req1
  = ([especie_call name],
     Response (JObj [("error", JStr "openai request failed");
                     ("detail", JStr (str_exn TypeError))]) 502)
  /\ esplanta create req2
     = ([esplanta_call pregunta],
        Response (JObj [("error", JStr "openai request failed");
                        ("detail", JStr (str_exn AttributeError))]) 502).
Proof.
  intros F1 N1 F2 N2 C1 C2 Hpayload Hcontent.
  rewrite (especie_resolved create req1 name F1) by (intros ->; discriminate).
  rewrite (esplanta_resolved create req2 pregunta F2) by (intros ->; discriminate).
  rewrite C1, C2. simpl bind.
  rewrite (especie_reply_text resp content Hpayload).
  destruct Hpayload as (choice & Hchoice & _ & Hmsg).
  unfold esplanta_reply. rewrite Hchoice. simpl bind. rewrite Hmsg. simpl bind.
  destruct content; try discriminate; auto.
Qed.

Lemma X11_null_content_witness :
  let reply :=
    JObj [("choices", JArr [JObj [("message", JObj [("role", JStr "assistant");
                                                    ("content", JNull)])]])] in
  especie (RT := mock_runtime) (always (inr reply)) monstera_request
  = ([especie_call "Monstera deliciosa"],
     Response (JObj [("error", JStr "openai request failed");
                     ("detail", JStr "TypeError")]) 502)
  /\ esplanta (RT := mock_runtime) (always (inr reply)) fern_request
     = ([esplanta_call "Is a fern a plant?"],
        Response (JObj [("error", JStr "openai request failed");
                        ("detail", JStr "AttributeError")]) 502).
Proof.
  intros reply.
  apply (X11_content_that_is_not_text (RT := mock_runtime) (always (inr reply))
           monstera_request fern_request
           "Monstera deliciosa" "Is a fern a plant?" reply JNull).
  - reflexivity.
  - reflexivity.
  - reflexivity.
  - reflexivity.
  - reflexivity.
  - reflexivity.
  - eexists. split; [reflexivity |]. split; reflexivity.
  - reflexivity.
Defined.

(** ** Which requests make a handler raise *)

(** X12: an exception leaves POST /especie in three cases only: the body
    is not JSON and [get_json] raises; the body is JSON but not an object;
    the body is an object whose especie is a non-empty value that is not a
    string (a number, true, a non-empty list or object).  The last two raise
    AttributeError. *)
Theorem X12_when_especie_raises
  {RT : Runtime} (create : chat_call -> py json) (req : request) (e : exn) :
  snd (especie create req) = Unhandled e
  <-> (req_json_force req = inl e
       \/ (e = AttributeError
           /\ exists data,
               req_json_force req = inr data
               /\ (is_dict data = false
                   \/ exists fields v,
                       data = JObj fields
                       /\ lookup "especie" fields = Some v
                       /\ py_truthy v = true
                       /\ is_json_str v = false))).
Proof.
  rewrite especie_unhandled_iff. unfold especie_field.
  destruct (req_json_force req) as [e' | data]; simpl.
  - split.
    + intros [= ->]. now left.
    + intros [[= ->] | (_ & data & H & _)]; [reflexivity | discriminate].
  - split.
    + intros H. right.
      destruct data as [| | | | | | fields]; simpl in H;
        try (injection H as <-; split; [reflexivity |];
             eexists; split; [reflexivity |]; now left).
      destruct (lookup "especie" fields) as [v |] eqn:L; [| discriminate].
      unfold py_or in H. destruct (py_truthy v) eqn:T; [| discriminate].
      destruct v; simpl in H; try discriminate;
        injection H as <-; (split; [reflexivity |]);
        eexists; (split; [reflexivity |]); right; eauto 10.
    + intros [H | (-> & data' & [= <-] & [Hd | (fields & v & -> & L & T & S)])];
        [discriminate | |].
      * destruct data; try discriminate; reflexivity.
      * simpl. rewrite L. unfold py_or. rewrite T.
        destruct v; try discriminate; reflexivity.
Qed.

Lemma esplanta_data_dict {RT : Runtime} (req : request) :
  exists fields, esplanta_data req = JObj fields.
Proof.
  unfold esplanta_data.
  match goal with |- context [is_dict ?d] => destruct d end; simpl; eauto.
Qed.

Lemma or_chain_form_query (form query : list (string * string)) :
  exists s,
    py_or (multidict_get "pregunta" form)
      (py_or (multidict_get "pregunta" query) (JStr "")) = JStr s.
Proof.
  unfold multidict_get, py_or.
  destruct (lookup "pregunta" form) as [f |]; simpl.
  - destruct (str_empty f); simpl; eauto.
    destruct (lookup "pregunta" query) as [q |]; simpl; eauto.
    destruct (str_empty q); simpl; eauto.
  - destruct (lookup "pregunta" query) as [q |]; simpl; eauto.
    destruct (str_empty q); simpl; eauto.
Qed.

(** X13: an exception leaves POST|GET /esplanta in one case only: the
    body is an object whose pregunta is a non-empty value that is not a
    string.  A body that is not JSON, or not an object, never makes it
    raise. *)
Theorem X13_when_esplanta_raises
  {RT : Runtime} (create : chat_call -> py json) (req : request) (e : exn) :
  snd (esplanta create req) = Unhandled e
  <-> (e = AttributeError
       /\ exists fields v,
           esplanta_data req = JObj fields
           /\ lookup "pregunta" fields = Some v
           /\ py_truthy v = true
           /\ is_json_str v = false).
Proof.
  rewrite esplanta_unhandled_iff. unfold esplanta_field, pregunta_sources.
  destruct (esplanta_data_dict req) as [fields ->]. simpl.
  destruct (or_chain_form_query (req_form req) (req_args req)) as [s Hs].
  split.
  - intros H.
    destruct (lookup "pregunta" fields) as [v |] eqn:L.
    + unfold py_or at 1 in H. destruct (py_truthy v) eqn:T.
      * destruct v; simpl in H; try discriminate;
          injection H as <-; (split; [reflexivity |]); eauto 10.
      * rewrite Hs in H. discriminate.
    + unfold py_or at 1 in H. simpl in H. rewrite Hs in H. discriminate.
  - intros (-> & fields' & v & [= <-] & L & T & S).
    rewrite L. unfold py_or at 1. rewrite T.
    destruct v; try discriminate; reflexivity.
Qed.

(** ** The body of a question *)

Lemma esplanta_same_sources {RT : Runtime} (create : chat_call -> py json)
  (r1 r2 : request) :
  esplanta_data r1 = esplanta_data r2 ->
  req_form r1 = req_form r2 ->
  req_args r1 = req_args r2 ->
  esplanta create r1 = esplanta create r2.
Proof.
  intros Hd Hf Ha. unfold esplanta, esplanta_field, pregunta_sources.
  now rewrite Hd, Hf, Ha.
Qed.

(** X14: a body that gives no object (JSON that is a list, a number, a
    string; bytes that are empty, not UTF-8, not JSON) is ignored: the
    request is handled exactly as the same request sent without a body, from
    its form and its query string. *)
Theorem X14_unusable_body_is_ignored
  {RT : Runtime} (create : chat_call -> py json) (req : request) :
  body_unusable req ->
  esplanta create req = esplanta create (without_body req).
Proof.
  intros H. apply esplanta_same_sources; try reflexivity.
  assert (E : esplanta_data req = JObj []).
  { unfold esplanta_data.
    destruct H as [[Hn Hd] | [Hn [Hraw | Hraw]]]; rewrite Hn.
    - now rewrite Hd.
    - now rewrite Hraw.
    - destruct (str_empty (req_data req)); [reflexivity |].
      unfold raw_body_json in Hraw.
      destruct (text <- decode_utf8 (req_data req) ;; _) as [? | d]; [reflexivity |].
      now rewrite (Hraw d eq_refl). }
  rewrite E. reflexivity.
Qed.

Lemma X14_list_body_witness :
  let req := {| req_json_force := inr (JArr [JStr "Is a fern a plant?"]);
                req_json_silent := JArr [JStr "Is a fern a plant?"];
                req_data := "[" ++ quoted "Is a fern a plant?" ++ "]";
                req_form := [];
                req_args := [("pregunta", "Is a fern a plant?")] |} in
  esplanta (RT := mock_runtime) (always (inr (text_reply "sí"))) req
  = esplanta (RT := mock_runtime) (always (inr (text_reply "sí"))) (without_body req).
Proof.
  intros req.
  apply (X14_unusable_body_is_ignored (RT := mock_runtime) _ req).
  left. split; reflexivity.
Defined.

(** X15: when the body was not recognised as JSON but its bytes decode
    to a JSON object, the request is handled exactly as if the body had been
    parsed to that object. *)
Theorem X15_undeclared_json_body_is_read
  {RT : Runtime} (create : chat_call -> py json) (req : request)
  (text : string) (fields : list (string * json)) :
  is_none (req_json_silent req) = true ->
  str_empty (req_data req) = false ->
  decode_utf8 (req_data req) = inr text ->
  str_empty text = false ->
  json_loads text = inr (JObj fields) ->
  esplanta create req = esplanta create (with_json_body (JObj fields) req).
Proof.
  intros Hn Hraw Hdec Htext Hloads.
  apply esplanta_same_sources; try reflexivity.
  unfold esplanta_data. simpl. rewrite Hn, Hraw, Hdec. simpl.
  now rewrite Htext, Hloads.
Qed.

Lemma X15_moss_witness :
  esplanta (RT := table_runtime [(moss_text, JObj moss_body)])
    (always (inr (text_reply "sí"))) (raw_request moss_text [])
  = esplanta (RT := table_runtime [(moss_text, JObj moss_body)])
      (always (inr (text_reply "sí")))
      (with_json_body (JObj moss_body) (raw_request moss_text [])).
Proof.
  apply (X15_undeclared_json_body_is_read
           (RT := table_runtime [(moss_text, JObj moss_body)])
           _ (raw_request moss_text []) moss_text moss_body).
  - reflexivity.
  - reflexivity.
  - reflexivity.
  - reflexivity.
  - reflexivity.
Defined.

(** ** Values of especie that count as missing *)

(** X16: an especie that is present but empty for Python (null, false,
    0, an empty string, list or object) is answered like a missing one: the
    400 error, no call made. *)
Theorem X16_falsy_especie_is_missing
  {RT : Runtime} (create : chat_call -> py json) (req : request)
  (fields : list (string * json)) (v : json) :
  req_json_force req = inr (JObj fields) ->
  lookup "especie" fields = Some v ->
  py_truthy v = false ->
  especie create req
  = ([], Response (JObj [("error", JStr "missing 'especie' in JSON body")]) 400).
Proof.
  intros Hbody Hv Hfalsy. unfold especie, especie_field.
  rewrite Hbody. simpl. rewrite Hv. unfold py_or. rewrite Hfalsy. reflexivity.
Qed.

Lemma X16_zero_witness :
  especie (RT := mock_runtime) (always (inr (text_reply "40% and 60%")))
    (json_request (JObj [("especie", JInt 0)])
       ("{" ++ quoted "especie" ++ ":0}"))
  = ([], Response (JObj [("error", JStr "missing 'especie' in JSON body")]) 400).
Proof.
  apply (X16_falsy_especie_is_missing (RT := mock_runtime) _ _
           [("especie", JInt 0)] (JInt 0)).
  - reflexivity.
  - reflexivity.
  - reflexivity.
Defined.

(** ** The prompts *)

Lemma prefix_append (n s : string) : prefix n (n ++ s) = true.
Proof.
  induction n as [| a n IH]; simpl; [now destruct s |].
  destruct (Ascii.ascii_dec a a) as [_ | Hne]; [exact IH | now contradiction Hne].
Qed.

Lemma str_contains_append (n pre post : string) :
  str_contains n (pre ++ n ++ post) = true.
Proof.
  induction pre as [| a pre IH].
  - simpl. pose proof (prefix_append n post) as H.
    destruct (n ++ post) as [| b r] eqn:E.
    + destruct n; [reflexivity | discriminate].
    + cbn [str_contains]. now rewrite H.
  - change (String a pre ++ n ++ post) with (String a (pre ++ n ++ post)).
    cbn [str_contains]. rewrite IH. apply orb_true_r.
Qed.

Lemma append_length (a b : string) :
  String.length (a ++ b) = (String.length a + String.length b)%nat.
Proof. induction a as [| c a IH]; simpl; [reflexivity | now rewrite IH]. Qed.

Lemma append_cancel_r (a b s : string) : a ++ s = b ++ s -> a = b.
Proof.
  revert b. induction a as [| c a IH]; intros [| d b] H; simpl in H.
  - reflexivity.
  - apply (f_equal String.length) in H. simpl in H. rewrite append_length in H. lia.
  - apply (f_equal String.length) in H. simpl in H. rewrite append_length in H. lia.
  - injection H as -> H. f_equal. now apply IH.
Qed.

(** X17: the user prompt of the species endpoint contains the trimmed
    name, and two names give the same call only when they are equal; the
    user prompt of the question endpoint is the trimmed question itself. *)
Theorem X17_prompts_carry_the_input
  {RT : Runtime} (create : chat_call -> py json) (req1 req2 : request)
  (name pregunta : string) :
  especie_field req1 = inr name -> str_empty name = false ->
  esplanta_field req2 = inr pregunta -> str_empty pregunta = false ->
  (exists user,
      map call_messages (fst (especie create req1))
      = [[("system", especie_system); ("user", user)]]
      /\ str_contains name user = true)
  /\ (forall other, especie_call other = especie_call name -> other = name)
  /\ map call_messages (fst (esplanta create req2))
     = [[("system", esplanta_system); ("user", pregunta)]].
Proof.
  intros F1 N1 F2 N2.
  rewrite (especie_resolved create req1 name F1) by (intros ->; discriminate).
  rewrite (esplanta_resolved create req2 pregunta F2) by (intros ->; discriminate).
  split; [| split].
  - eexists. split; [reflexivity |]. unfold especie_user. apply str_contains_append.
  - intros other H. apply (f_equal call_messages) in H. unfold especie_call in H.
    simpl in H. injection H as H. unfold especie_user in H.
    now apply append_cancel_r in H.
  - reflexivity.
Qed.

Lemma X17_monstera_prompt_witness :
  (exists user,
      map call_messages
        (fst (especie (RT := mock_runtime) (always (inr (text_reply "40 60")))
                monstera_request))
      = [[("system", especie_system); ("user", user)]]
      /\ str_contains "Monstera deliciosa" user = true)
  /\ (forall other,
        especie_call other = especie_call "Monstera deliciosa" ->
        other = "Monstera deliciosa")
  /\ map call_messages
       (fst (esplanta (RT := mock_runtime) (always (inr (text_reply "40 60")))
               fern_request))
     = [[("system", esplanta_system); ("user", "Is a fern a plant?")]].
Proof.
  apply (X17_prompts_carry_the_input (RT := mock_runtime) _
           monstera_request fern_request).
  - reflexivity.
  - reflexivity.
  - reflexivity.
  - reflexivity.
Defined.

(** ** Start-up *)





(** ** The upper bound and the tipo of the structured path *)

(** X19: on the structured path integers above 100 are sent back as 100,
    and a tipo that is absent or is anything but the exact literals, a
    capitalised "Exterior" included, is sent back as "interior". *)
Theorem X19_excess_and_unknown_tipo
  {RT : Runtime} (create : chat_call -> py json) (req : request) (name : string)
  (resp : json) (s : string) (fields : list (string * json)) (ht ha : Z) :
  especie_field req = inr name ->
  str_empty name = false ->
  create (especie_call name) = inr resp ->
  structured_payload resp (JStr s) ->
  json_loads s = inr (JObj fields) ->
  lookup "humedad_tierra" fields = Some (JInt ht) -> 100 < ht ->
  lookup "humedad_ambiente" fields = Some (JInt ha) -> 100 < ha ->
  (forall v, lookup "tipo" fields = Some v ->
             is_str "interior" v = false /\ is_str "exterior" v = false) ->
  especie create req
  = ([especie_call name],
     Response
       (JObj [("humedad_tierra", JInt 100); ("humedad_ambiente", JInt 100);
              ("tipo", JStr "interior")]) 200).
Proof.
  intros Hfield Hname Hcall Hpayload Hloads H1 R1 H2 R2 Htipo.
  rewrite (especie_structured_answer create req name resp _ Hfield Hname Hcall Hpayload).
  unfold especie_structured. simpl py_json_loads. rewrite Hloads.
  simpl. rewrite H1, H2. simpl.
  assert (C : forall h, 100 < h -> clamp_humidity h = 100).
  { intros h Hh. unfold clamp_humidity.
    destruct (h <? 0) eqn:A; destruct (h >? 100) eqn:B; simpl;
      destruct (h =? -1) eqn:D; simpl; lia. }
  rewrite (C ht R1), (C ha R2).
  destruct (lookup "tipo" fields) as [v |].
  - destruct (Htipo v eq_refl) as [Hi He].
    unfold normal_tipo. now rewrite Hi, He.
  - reflexivity.
Qed.

Lemma X19_excessive_witness :
  especie (RT := table_runtime [(excessive_text, JObj excessive)])
    (always (inr (function_reply (JStr excessive_text)))) monstera_request
  = ([especie_call "Monstera deliciosa"],
     Response
       (JObj [("humedad_tierra", JInt 100); ("humedad_ambiente", JInt 100);
              ("tipo", JStr "interior")]) 200).
Proof.
  apply (X19_excess_and_unknown_tipo
           (RT := table_runtime [(excessive_text, JObj excessive)])
           _ monstera_request "Monstera deliciosa"
           (function_reply (JStr excessive_text)) excessive_text excessive
           120 1000).
  - reflexivity.
  - reflexivity.
  - reflexivity.
  - eexists. split; [reflexivity |]. split; reflexivity.
  - reflexivity.
  - reflexivity.
  - lia.
  - reflexivity.
  - lia.
  - intros v [= <-]. split; reflexivity.
Defined.
